(** * Anchor-based field extraction of PDFEditorPro

    A shallow embedding of the extraction engine of [modules.py] (native
    text path) and [ocr_module.py] (OCR path):

    - [transform_visual_to_pdf_coords], the rotation-aware geometry
      transform used when a template is saved;
    - [_find_box_on_pages], the multi-anchor matcher over searchable text;
    - [_find_box_with_ocr], the matcher over OCR tokens;
    - the batch loop of [run_extraction].

    Coordinates are Python floats in the source; they are modelled as
    rationals with exact arithmetic.  Python [str] values are modelled as
    strings of code points below 256.  The text primitives of PyMuPDF and
    EasyOCR ([search_for], [get_text], [readtext]) are fields of the page
    records, so every statement holds for all documents. *)

From Stdlib Require Import ZArith QArith Qabs String Ascii List Bool Lia Lqa.
From Stdlib Require Import Permutation.
Import ListNotations.

Set Implicit Arguments.

(** ** Outcome of a Python call: a returned value or a raised exception *)

Inductive exn : Type :=
  | InvalidRotation
  | AttributeError
  | OpenError.

Inductive outcome (A : Type) : Type :=
  | Returned (a : A)
  | Raised (e : exn).

Arguments Returned {A} a.
Arguments Raised {A} e.

(** ** Python [str] primitives *)

Module PyStr.

Local Open Scope string_scope.

Definition code (c : ascii) : N := N_of_ascii c.

(** [str.isspace] on one code point below 256. *)
Definition is_space (c : ascii) : bool :=
  let n := code c in
  ((9 <=? n) && (n <=? 13) || (28 <=? n) && (n <=? 32)
   || (n =? 133) || (n =? 160))%N.

Definition is_upper (c : ascii) : bool :=
  let n := code c in
  ((65 <=? n) && (n <=? 90)
   || (192 <=? n) && (n <=? 222) && negb (n =? 215))%N.

Definition lower_char (c : ascii) : ascii :=
  if is_upper c then ascii_of_N (code c + 32) else c.

(** [s.lower()] *)
Fixpoint lower (s : string) : string :=
  match s with
  | EmptyString => EmptyString
  | String c s' => String (lower_char c) (lower s')
  end.

(** Truthiness of a string: [if s:] *)
Definition truthy (s : string) : bool :=
  match s with
  | EmptyString => false
  | String _ _ => true
  end.

Fixpoint lstrip (s : string) : string :=
  match s with
  | EmptyString => EmptyString
  | String c s' => if is_space c then lstrip s' else s
  end.

Fixpoint rstrip (s : string) : string :=
  match s with
  | EmptyString => EmptyString
  | String c s' =>
      let r := rstrip s' in
      if is_space c && negb (truthy r) then EmptyString else String c r
  end.

(** [s.strip()] *)
Definition strip (s : string) : string := rstrip (lstrip s).

(** [s.split()]: the maximal runs of non-whitespace characters, in order.
    [cur] is the run being read, if any. *)
Fixpoint split_from (cur : option string) (s : string) : list string :=
  match s with
  | EmptyString =>
      match cur with
      | Some w => [w]
      | None => []
      end
  | String c s' =>
      if is_space c then
        match cur with
        | Some w => w :: split_from None s'
        | None => split_from None s'
        end
      else
        match cur with
        | Some w => split_from (Some (w ++ String c EmptyString)) s'
        | None => split_from (Some (String c EmptyString)) s'
        end
  end.

Definition split (s : string) : list string := split_from None s.

(** [s.startswith(p)] *)
Fixpoint startswith (s p : string) {struct p} : bool :=
  match p with
  | EmptyString => true
  | String b p' =>
      match s with
      | EmptyString => false
      | String a s' => Ascii.eqb a b && startswith s' p'
      end
  end.

(** [needle in hay] *)
Fixpoint contains (needle hay : string) : bool :=
  startswith hay needle
  || match hay with
     | EmptyString => false
     | String _ hay' => contains needle hay'
     end.

(** [s.replace(old, new)] for a non-empty [old]: left to right, without
    overlap.  [skip] counts the characters of a matched [old] still to be
    dropped. *)
Fixpoint replace_from (old new : string) (skip : nat) (s : string) : string :=
  match s with
  | EmptyString => EmptyString
  | String c s' =>
      match skip with
      | S k => replace_from old new k s'
      | O =>
          if startswith s old
          then new ++ replace_from old new (String.length old - 1) s'
          else String c (replace_from old new 0 s')
      end
  end.

Definition replace (old new s : string) : string := replace_from old new 0 s.




End PyStr.

(** ** Rectangles of PyMuPDF ([fitz.Rect]) *)

Module Fitz.

Local Open Scope Q_scope.

Record Rect : Type := mkRect { x0 : Q; y0 : Q; x1 : Q; y1 : Q }.

Definition Qltb (a b : Q) : bool := negb (Qle_bool b a).

(** [r.is_empty] *)
Definition is_empty (r : Rect) : bool :=
  Qle_bool (x1 r) (x0 r) || Qle_bool (y1 r) (y0 r).

(** [r.normalize()] *)
Definition normalize (r : Rect) : Rect :=
  let '(a0, a1) := if Qltb (x1 r) (x0 r) then (x1 r, x0 r) else (x0 r, x1 r) in
  let '(b0, b1) := if Qltb (y1 r) (y0 r) then (y1 r, y0 r) else (y0 r, y1 r) in
  mkRect a0 b0 a1 b1.

(** [a & b] on finite rectangles *)
Definition rect_and (a b : Rect) : Rect :=
  if is_empty b then b
  else if is_empty a then a
  else mkRect (if Qltb (x0 a) (x0 b) then x0 b else x0 a)
              (if Qltb (y0 a) (y0 b) then y0 b else y0 a)
              (if Qltb (x1 b) (x1 a) then x1 b else x1 a)
              (if Qltb (y1 b) (y1 a) then y1 b else y1 a).

(** [r + (d0, d1, d2, d3)] *)
Definition rect_add (r : Rect) (d : Q * Q * Q * Q) : Rect :=
  let '(d0, d1, d2, d3) := d in
  mkRect (x0 r + d0) (y0 r + d1) (x1 r + d2) (y1 r + d3).

End Fitz.

(** ** Template boxes ([LabeledBox]) *)

Inductive box_type : Type := LabelBox | AnchorBox | ValueBox.

Record Box : Type := mkBox {
  name : option string;          (* Column(String), may be NULL *)
  kind : box_type;
  x : Q;
  y : Q;
  width : Q;
  height : Q;
  anchor_text : option string    (* Column(String, nullable=True) *)
}.

(** [s or ""] *)
Definition or_empty (s : option string) : string :=
  match s with
  | Some t => t
  | None => EmptyString
  end.

(** ** The native matcher: [_find_box_on_pages] of [modules.py] *)

Module Native.

Import Fitz PyStr.
Local Open Scope Q_scope.

(** One entry of [page.get_text("blocks", clip=r)]: a 7-tuple
    [(x0, y0, x1, y1, text, block_no, block_type)]. *)
Record Block : Type := mkBlock {
  block_bbox : Rect;
  block_text : string;
  block_no : Z;
  block_kind : Z
}.

(** A loaded page of a PyMuPDF document, seen through the calls the matcher
    makes on it. *)
Record Page : Type := mkPage {
  rect : Rect;                          (* page.rect *)
  rotation : Z;                         (* page.rotation *)
  search_for : string -> list Rect;     (* page.search_for(needle) *)
  get_text : Rect -> string;            (* page.get_text("text", clip=r) *)
  get_blocks : Rect -> list Block       (* page.get_text("blocks", clip=r) *)
}.

(** A document is its sequence of pages; [None] is a page on which
    [doc.load_page] raises: the [except] clause of the page loop catches
    the exception and goes on with the next page.  The calls on a loaded
    page are total. *)
Definition Document : Type := list (option Page).

Definition POSITION_TOLERANCE : Q := 50.

Record Secondary : Type := mkSecondary {
  sec_text : string;
  expected_dx : Q;
  expected_dy : Q
}.

(** The list built by [for anchor in anchors[1:]]. *)
Fixpoint secondary_anchors (first_anchor : Box) (rest : list Box)
  : list Secondary :=
  match rest with
  | [] => []
  | a :: rest' =>
      let a_text := strip (or_empty (name a)) in
      if truthy a_text
      then mkSecondary a_text (x a - x first_anchor) (y a - y first_anchor)
             :: secondary_anchors first_anchor rest'
      else secondary_anchors first_anchor rest'
  end.

(** What the search over the pages is run with. *)
Record Config : Type := mkConfig {
  primary_anchor_text : string;
  secondaries : list Secondary;
  value_dx : Q;
  value_dy : Q;
  value_w : Q;
  value_h : Q
}.

(** The returned dictionary. *)
Record Match : Type := mkMatch {
  m_page : nat;
  m_anchor_text : string;
  m_value_text : string;
  m_value_rect : Rect;
  m_target_rotation : Z
}.

(** The calls and iterations of a run that the statements speak about. *)
Inductive event : Type :=
  | LoadPage (page_idx : nat)                       (* doc.load_page(page_idx) *)
  | Checking (page_idx : nat) (primary_rect : Rect). (* one turn of the candidate loop *)

(** The test [dx_diff <= POSITION_TOLERANCE and dy_diff <= POSITION_TOLERANCE]. *)
Definition offset_matches (primary_rect sec_rect : Rect) (s : Secondary)
  : bool :=
  let actual_dx := x0 sec_rect - x0 primary_rect in
  let actual_dy := y0 sec_rect - y0 primary_rect in
  let dx_diff := Qabs (actual_dx - expected_dx s) in
  let dy_diff := Qabs (actual_dy - expected_dy s) in
  Qle_bool dx_diff POSITION_TOLERANCE && Qle_bool dy_diff POSITION_TOLERANCE.

(** The loop [for sec_rect in sec_instances] with its [break]. *)
Definition found_matching (page : Page) (primary_rect : Rect) (s : Secondary)
  : bool :=
  existsb (fun sec_rect => offset_matches primary_rect sec_rect s)
          (search_for page (sec_text s)).

(** The loop [for secondary in secondary_anchors] with its [break]. *)
Definition all_secondary_match (page : Page) (primary_rect : Rect)
  (secs : list Secondary) : bool :=
  forallb (found_matching page primary_rect) secs.

Definition value_rect_at (cfg : Config) (page : Page) (primary_rect : Rect)
  : Rect :=
  let value_rect :=
    mkRect (x0 primary_rect + value_dx cfg)
           (y0 primary_rect + value_dy cfg)
           (x0 primary_rect + value_dx cfg + value_w cfg)
           (y0 primary_rect + value_dy cfg + value_h cfg) in
  let value_rect := normalize value_rect in
  rect_and value_rect (rect page).

(** [for block in blocks: text += str(block[4]).strip() + " "], from an
    empty [text]; every block has 7 entries, so [len(block) > 4] holds. *)
Definition blocks_text (blocks : list Block) : string :=
  fold_left (fun text b => (text ++ (strip (block_text b) ++ " "))%string)
            blocks EmptyString.

Definition extract_value_text (page : Page) (value_rect : Rect) : string :=
  if is_empty value_rect then EmptyString
  else
    let text := strip (get_text page value_rect) in
    let text :=
      if truthy text then text
      else
        let expanded :=
          rect_and (rect_add value_rect (-(10), -(10), 10, 10)) (rect page) in
        strip (get_text page expanded) in
    let text :=
      if truthy text then text
      else strip (blocks_text (get_blocks page value_rect)) in
    text.

(** The body of [for primary_rect in primary_instances]: the match it
    returns, if it returns. *)
Definition try_instance (cfg : Config) (page_idx : nat) (page : Page)
  (primary_rect : Rect) : option Match :=
  if all_secondary_match page primary_rect (secondaries cfg) then
    let value_rect := value_rect_at cfg page primary_rect in
    let value_text := extract_value_text page value_rect in
    if truthy value_text
    then Some (mkMatch page_idx (primary_anchor_text cfg) value_text
                       value_rect (rotation page))
    else None
  else None.

Fixpoint check_instances (cfg : Config) (page_idx : nat) (page : Page)
  (instances : list Rect) : option Match * list event :=
  match instances with
  | [] => (None, [])
  | primary_rect :: rest =>
      match try_instance cfg page_idx page primary_rect with
      | Some m => (Some m, [Checking page_idx primary_rect])
      | None =>
          let '(r, tr) := check_instances cfg page_idx page rest in
          (r, Checking page_idx primary_rect :: tr)
      end
  end.

(** The candidates of a page: the occurrences of the whole anchor text or,
    when there is none, those of its first word. *)
Definition primary_instances (page : Page) (anchor_text : string)
  : list Rect :=
  match search_for page anchor_text with
  | [] =>
      match split anchor_text with
      | w :: _ => search_for page w
      | [] => []
      end
  | found => found
  end.

(** [for page_idx in range(len(doc))], from page [page_idx] on. *)
Fixpoint search_pages (cfg : Config) (page_idx : nat) (pages : Document)
  : option Match * list event :=
  match pages with
  | [] => (None, [])
  | None :: rest =>
      let '(r, tr) := search_pages cfg (S page_idx) rest in
      (r, LoadPage page_idx :: tr)
  | Some page :: rest =>
      let '(found, tr_page) :=
        check_instances cfg page_idx page
          (primary_instances page (primary_anchor_text cfg)) in
      match found with
      | Some m => (Some m, LoadPage page_idx :: tr_page)
      | None =>
          let '(r, tr) := search_pages cfg (S page_idx) rest in
          (r, LoadPage page_idx :: tr_page ++ tr)
      end
  end.

(** The guards at the head of the function: the search configuration of a
    usable label, [None] where the function returns [None] at once. *)
Definition label_config (anchors values : list Box) : option Config :=
  match anchors with
  | [] => None
  | first_anchor :: rest =>
      match values with
      | [] => None
      | first_value :: _ =>
          let primary := strip (or_empty (name first_anchor)) in
          if truthy primary
          then Some (mkConfig primary
                       (secondary_anchors first_anchor rest)
                       (x first_value - x first_anchor)
                       (y first_value - y first_anchor)
                       (width first_value)
                       (height first_value))
          else None
      end
  end.

(** [_find_box_on_pages(doc, label_box, anchors, values, ...)]: the result
    and the trace of the run.  The arguments [label_box], [base_width],
    [base_height] and [template_rotation] are never read by the body. *)
Definition _find_box_on_pages (doc : Document) (anchors values : list Box)
  : option Match * list event :=
  match label_config anchors values with
  | None => (None, [])
  | Some cfg => search_pages cfg 0 doc
  end.

End Native.

(** ** The geometry transform and the page dimensions it is called with *)

Module Trainer.

Local Open Scope Q_scope.

Definition transform_visual_to_pdf_coords
  (x y w h page_width page_height : Q) (rotation : Z) : Q * Q * Q * Q :=
  if (rotation =? 0)%Z then (x, y, w, h)
  else if (rotation =? 90)%Z then
    let new_x := y in
    let new_y := page_width - x - w in
    let new_w := h in
    let new_h := w in
    (new_x, new_y, new_w, new_h)
  else if (rotation =? 180)%Z then
    let new_x := page_width - x - w in
    let new_y := page_height - y - h in
    (new_x, new_y, w, h)
  else if (rotation =? 270)%Z then
    let new_x := page_height - y - h in
    let new_y := x in
    let new_w := h in
    let new_h := w in
    (new_x, new_y, new_w, new_h)
  else (x, y, w, h).

(** The function as a Python call: every path of its body ends in a
    [return], none in a [raise]. *)
Definition call_transform_visual_to_pdf_coords
  (x y w h page_width page_height : Q) (rotation : Z)
  : outcome (Q * Q * Q * Q) :=
  Returned (transform_visual_to_pdf_coords x y w h page_width page_height
              rotation).

Definition supported_rotation (rotation : Z) : bool :=
  ((rotation =? 0) || (rotation =? 90) || (rotation =? 180)
   || (rotation =? 270))%Z.

(** What [render_current_page] reads from a loaded page.  [page.rect] is the
    page rectangle in the visual orientation, rotation applied. *)
Record PdfPage : Type := mkPdfPage {
  rect_width : Q;        (* page.rect.width *)
  rect_height : Q;       (* page.rect.height *)
  page_rotation : Z      (* page.rotation *)
}.

Definition Key : Type := (nat * nat)%type.

Definition key_eqb (a b : Key) : bool :=
  Nat.eqb (fst a) (fst b) && Nat.eqb (snd a) (snd b).

(** The two dictionaries of the trainer widget. *)
Record Trainer : Type := mkTrainer {
  page_rotations : Key -> option Z;
  page_dimensions : Key -> option (Q * Q)
}.

(** The bookkeeping of [render_current_page]:
    [self.page_rotations[key] = page.rotation] and
    [self.page_dimensions[key] = (page.rect.width, page.rect.height)]. *)
Definition render_current_page (st : Trainer) (key : Key) (page : PdfPage)
  : Trainer :=
  mkTrainer
    (fun k => if key_eqb k key then Some (page_rotation page)
              else page_rotations st k)
    (fun k => if key_eqb k key then Some (rect_width page, rect_height page)
              else page_dimensions st k).

(** The coordinates [_save_box_to_db] stores for a box drawn at the visual
    rectangle [(vis_x, vis_y, vis_w, vis_h)]. *)
Definition saved_coords (st : Trainer) (key : option Key)
  (vis_x vis_y vis_w vis_h : Q) : Q * Q * Q * Q :=
  let rotation :=
    match key with
    | Some k => match page_rotations st k with Some r => r | None => 0%Z end
    | None => 0%Z
    end in
  let '(page_width, page_height) :=
    match key with
    | Some k => match page_dimensions st k with Some d => d | None => (0, 0) end
    | None => (0, 0)
    end in
  transform_visual_to_pdf_coords vis_x vis_y vis_w vis_h
    page_width page_height rotation.

Definition empty_trainer : Trainer :=
  mkTrainer (fun _ => None) (fun _ => None).

(** The raw-space page width in the words of the specification: "equal to
    the page's visual height, since a 90/270 rotation swaps axes". *)
Definition spec_width_raw (page : PdfPage) : Q := rect_height page.

(** The rotation-90 rule in the words of the specification. *)
Definition spec_visual_to_raw_90 (page : PdfPage) (x y w h : Q)
  : Q * Q * Q * Q :=
  (y, spec_width_raw page - x - w, h, w).

End Trainer.

(** ** The OCR matcher: [_find_box_with_ocr] of [ocr_module.py] *)

Module Ocr.

Import Fitz PyStr.
Local Open Scope Q_scope.

Definition OCR_DPI : Q := 300.

Record QRectF : Type := mkQRectF { qx : Q; qy : Q; qwidth : Q; qheight : Q }.

(** One result of [reader.readtext]: the four corner points, the text and
    the confidence. *)
Record Detection : Type := mkDetection {
  bbox : (Q * Q) * (Q * Q) * (Q * Q) * (Q * Q);
  det_text : string;
  conf : Q
}.

(** A page as the OCR path sees it: the raster of [_page_to_image] and the
    detector run on it or on a crop of it.  [None] from [readtext_crop] is
    an exception, which [_ocr_cropped_region] catches. *)
Record Page : Type := mkPage {
  image_width : Z;
  image_height : Z;
  readtext_full : list Detection;
  readtext_crop : Z -> Z -> Z -> Z -> option (list Detection)
}.

(** [None] is a page on which [doc.load_page] raises; the [except] clause
    of the page loop goes on with the next page. *)
Definition Document : Type := list (option Page).

Record Word : Type := mkWord {
  text : string;
  left : Q;
  top : Q;
  w_width : Q;
  w_height : Q;
  center_x : Q;
  center_y : Q
}.

Record Match : Type := mkMatch {
  m_page : nat;
  m_anchor_text : string;
  m_value_text : string;
  m_value_rect : Rect;
  m_label_rect : option Rect
}.

Inductive event : Type :=
  | LoadPage (page_idx : nat)
  | ReadFull (page_idx : nat)                       (* readtext on the whole raster *)
  | ReadCrop (page_idx : nat) (x1 y1 x2 y2 : Z).    (* readtext on a crop *)

(** [min(l)] and [max(l)] of a four-element list. *)
Definition min4 (a b c d : Q) : Q :=
  let pick m v := if Qltb v m then v else m in
  pick (pick (pick a b) c) d.

Definition max4 (a b c d : Q) : Q :=
  let pick m v := if Qltb m v then v else m in
  pick (pick (pick a b) c) d.

(** One turn of [for bbox, text, conf in ocr_results]. *)
Definition word_of (d : Detection) : option Word :=
  let text_clean := strip (det_text d) in
  if truthy text_clean then
    let '(pa, pb, pc, pd) := bbox d in
    let min_x := min4 (fst pa) (fst pb) (fst pc) (fst pd) in
    let max_x := max4 (fst pa) (fst pb) (fst pc) (fst pd) in
    let min_y := min4 (snd pa) (snd pb) (snd pc) (snd pd) in
    let max_y := max4 (snd pa) (snd pb) (snd pc) (snd pd) in
    Some (mkWord text_clean min_x min_y (max_x - min_x) (max_y - min_y)
                 ((min_x + max_x) / 2) ((min_y + max_y) / 2))
  else None.

Fixpoint words_of (ocr_results : list Detection) : list Word :=
  match ocr_results with
  | [] => []
  | d :: rest =>
      match word_of d with
      | Some w => w :: words_of rest
      | None => words_of rest
      end
  end.

(** [anchor_search_text.lower().strip()] *)
Definition anchor_search_lower (anchor_search_text : string) : string :=
  strip (lower anchor_search_text).

(** [anchor_search_lower in word_lower or word_lower in anchor_search_lower] *)
Definition word_matches (search_lower : string) (w : Word) : bool :=
  let word_lower := lower (text w) in
  contains search_lower word_lower || contains word_lower search_lower.

(** [int(v)] of a float: truncation towards zero. *)
Definition int_of (v : Q) : Z := Z.quot (Qnum v) (Zpos (Qden v)).

(** [" ".join(texts)] *)
Fixpoint join_spaces (texts : list string) : string :=
  match texts with
  | [] => EmptyString
  | [t] => t
  | t :: rest => (t ++ " " ++ join_spaces rest)%string
  end.

(** [[text.strip() for bbox, text, conf in ocr_results if text.strip()]] *)
Fixpoint stripped_texts (ocr_results : list Detection) : list string :=
  match ocr_results with
  | [] => []
  | d :: rest =>
      if truthy (strip (det_text d))
      then strip (det_text d) :: stripped_texts rest
      else stripped_texts rest
  end.

(** [_ocr_cropped_region(pil_image, rect)], with the detector calls it
    makes.  The reader is always present here: the page loop has already
    skipped the page otherwise. *)
Definition _ocr_cropped_region (page_idx : nat) (page : Page) (r : QRectF)
  : string * list event :=
  let x1 := Z.max 0 (int_of (qx r)) in
  let y1 := Z.max 0 (int_of (qy r)) in
  let x2 := Z.min (image_width page) (int_of (qx r + qwidth r)) in
  let y2 := Z.min (image_height page) (int_of (qy r + qheight r)) in
  if ((x2 <=? x1) || (y2 <=? y1))%Z then (EmptyString, [])
  else
    match readtext_crop page x1 y1 x2 y2 with
    | Some ocr_results =>
        (join_spaces (stripped_texts ocr_results),
         [ReadCrop page_idx x1 y1 x2 y2])
    | None => (EmptyString, [ReadCrop page_idx x1 y1 x2 y2])
    end.

(** A [QRectF] in raster pixels as a [fitz.Rect] in points. *)
Definition to_points (r : QRectF) : Rect :=
  mkRect (qx r * 72 / OCR_DPI)
         (qy r * 72 / OCR_DPI)
         ((qx r + qwidth r) * 72 / OCR_DPI)
         ((qy r + qheight r) * 72 / OCR_DPI).

Record Config : Type := mkConfig {
  anchor_search_text : string;
  value_dx : Q;
  value_dy : Q;
  value_w : Q;
  value_h : Q;
  label_offsets : option (Q * Q * Q * Q)   (* label_dx, label_dy, label_w, label_h *)
}.

(** The body of the page loop once the words of the page are known. *)
Definition match_on_page (cfg : Config) (page_idx : nat) (page : Page)
  : option Match * list event :=
  let words := words_of (readtext_full page) in
  match find (word_matches (anchor_search_lower (anchor_search_text cfg)))
             words with
  | Some anchor_found =>
      let value_rect :=
        mkQRectF (left anchor_found + value_dx cfg)
                 (top anchor_found + value_dy cfg)
                 (value_w cfg) (value_h cfg) in
      let '(value_text, tr) := _ocr_cropped_region page_idx page value_rect in
      if truthy value_text then
        let label_rect_fitz :=
          match label_offsets cfg with
          | Some (label_dx, label_dy, label_w, label_h) =>
              Some (to_points
                      (mkQRectF (left anchor_found + label_dx)
                                (top anchor_found + label_dy)
                                label_w label_h))
          | None => None
          end in
        (Some (mkMatch page_idx (text anchor_found) value_text
                       (to_points value_rect) label_rect_fitz),
         ReadFull page_idx :: tr)
      else (None, ReadFull page_idx :: tr)
  | None => (None, [ReadFull page_idx])
  end.

(** [for page_idx in range(len(doc))], from page [page_idx] on;
    [reader_ok] tells whether [get_ocr_reader()] yields a reader. *)
Fixpoint search_pages (reader_ok : bool) (cfg : Config) (page_idx : nat)
  (pages : Document) : option Match * list event :=
  match pages with
  | [] => (None, [])
  | None :: rest =>
      let '(r, tr) := search_pages reader_ok cfg (S page_idx) rest in
      (r, LoadPage page_idx :: tr)
  | Some page :: rest =>
      if reader_ok then
        let '(found, tr_page) := match_on_page cfg page_idx page in
        match found with
        | Some m => (Some m, LoadPage page_idx :: tr_page)
        | None =>
            let '(r, tr) := search_pages reader_ok cfg (S page_idx) rest in
            (r, LoadPage page_idx :: tr_page ++ tr)
        end
      else
        let '(r, tr) := search_pages reader_ok cfg (S page_idx) rest in
        (r, LoadPage page_idx :: tr)
  end.

(** The text the anchor is searched by: the stored [anchor_text] or, when it
    is missing or a placeholder, what is left of the box name.  A box whose
    name is [None] has no [replace]. *)
Definition search_text_of (first_anchor : Box) : outcome string :=
  let stored := or_empty (anchor_text first_anchor) in
  if negb (truthy stored) || startswith stored "Anchor:" then
    match name first_anchor with
    | Some n =>
        Returned (strip (replace "..." EmptyString
                           (replace "Anchor: " EmptyString n)))
    | None => Raised AttributeError
    end
  else Returned stored.

(** [_find_box_with_ocr(doc, anchors, values, ..., label_box)]: the result
    and the trace of the run.  [page_width], [page_height] and [pdf_path]
    are never read by the body. *)
Definition _find_box_with_ocr (reader_ok : bool) (doc : Document)
  (anchors values : list Box) (label_box : option Box)
  : outcome (option Match) * list event :=
  match anchors, values with
  | first_anchor :: _, first_value :: _ =>
      match search_text_of first_anchor with
      | Raised e => (Raised e, [])
      | Returned search_text =>
          if truthy search_text then
            let cfg :=
              mkConfig search_text
                (x first_value - x first_anchor)
                (y first_value - y first_anchor)
                (width first_value) (height first_value)
                (match label_box with
                 | Some lb =>
                     Some (x lb - x first_anchor, y lb - y first_anchor,
                           width lb, height lb)
                 | None => None
                 end) in
            let '(r, tr) := search_pages reader_ok cfg 0 doc in
            (Returned r, tr)
          else (Returned None, [])
      end
  | _, _ => (Returned None, [])
  end.

End Ocr.

(** ** The batch loop of [run_extraction] *)

Module Batch.

Local Open Scope string_scope.

(** A label of the template with its children, as [label_info] holds it. *)
Record Label : Type := mkLabel {
  label_name : string;
  label_box : Box;
  children : list Box
}.

Definition is_anchor (b : Box) : bool :=
  match kind b with AnchorBox => true | _ => false end.

Definition is_value (b : Box) : bool :=
  match kind b with ValueBox => true | _ => false end.

(** [[b for b in label_box.children if b.box_type == 'anchor']] *)
Definition anchors_of (l : Label) : list Box := filter is_anchor (children l).

(** [[b for b in label_box.children if b.box_type == 'value']] *)
Definition values_of (l : Label) : list Box := filter is_value (children l).

(** [row_data]: a dictionary from column names to cell texts, in insertion
    order. *)
Definition Row : Type := list (string * string).

(** [row[key] = v] *)
Fixpoint dict_set (row : Row) (key v : string) : Row :=
  match row with
  | [] => [(key, v)]
  | (k, old) :: rest =>
      if String.eqb k key then (k, v) :: rest
      else (k, old) :: dict_set rest key v
  end.

(** [row.get(key, "")] *)
Fixpoint dict_get (row : Row) (key : string) : string :=
  match row with
  | [] => ""
  | (k, v) :: rest => if String.eqb k key then v else dict_get rest key
  end.

Section Loop.

(** An opened document. *)
Variable Doc : Type.

(** [fitz.open(pdf_path)] *)
Variable open_doc : string -> outcome Doc.

(** [os.path.basename] *)
Variable basename : string -> string.

(** The matcher of the module, reduced to the two texts the row keeps:
    [match['anchor_text']] and [match['value_text']]. *)
Variable find_match : Doc -> Label -> outcome (option (string * string)).

(** [for label in all_labels], filling [row_data]. *)
Fixpoint fill_row (doc : Doc) (labels : list Label) (row : Row)
  : outcome Row :=
  match labels with
  | [] => Returned row
  | l :: rest =>
      match find_match doc l with
      | Raised e => Raised e
      | Returned (Some (a, v)) =>
          fill_row doc rest
            (dict_set (dict_set row (label_name l ++ "_Anchor") a)
                      (label_name l ++ "_Value") v)
      | Returned None =>
          fill_row doc rest
            (dict_set (dict_set row (label_name l ++ "_Anchor") "")
                      (label_name l ++ "_Value") "")
      end
  end.

(** [for pdf_path in paths] inside the one [try] of [run_extraction]:
    [self.extraction_results] when the statement is left, and the exception
    its [except] clause reported, if any. *)
Fixpoint extraction_loop (labels : list Label) (paths : list string)
  (extraction_results : list Row) : list Row * option exn :=
  match paths with
  | [] => (extraction_results, None)
  | pdf_path :: rest =>
      match open_doc pdf_path with
      | Raised e => (extraction_results, Some e)
      | Returned doc =>
          match fill_row doc labels [("PDF Filename", basename pdf_path)] with
          | Raised e => (extraction_results, Some e)
          | Returned row_data =>
              extraction_loop labels rest (extraction_results ++ [row_data])
          end
      end
  end.

(** One turn of the loop on its own: the row of a document, or the
    exception that leaves the loop. *)
Definition row_of (labels : list Label) (pdf_path : string) : outcome Row :=
  match open_doc pdf_path with
  | Raised e => Raised e
  | Returned doc => fill_row doc labels [("PDF Filename", basename pdf_path)]
  end.

(** The rows of a run: [self.extraction_results = []] and then the loop. *)
Definition run_extraction (labels : list Label) (paths : list string)
  : list Row * option exn :=
  extraction_loop labels paths [].

End Loop.

(** The loop of [modules.py], over [_find_box_on_pages]. *)
Definition native_match (doc : Native.Document) (l : Label)
  : outcome (option (string * string)) :=
  match fst (Native._find_box_on_pages doc (anchors_of l) (values_of l)) with
  | Some m => Returned (Some (Native.m_anchor_text m, Native.m_value_text m))
  | None => Returned None
  end.

Definition run_extraction_native
  (open_doc : string -> outcome Native.Document)
  (basename : string -> string) :=
  run_extraction open_doc basename native_match.

(** The loop of [ocr_module.py], over [_find_box_with_ocr]. *)
Definition ocr_match (reader_ok : bool) (doc : Ocr.Document) (l : Label)
  : outcome (option (string * string)) :=
  match fst (Ocr._find_box_with_ocr reader_ok doc (anchors_of l) (values_of l)
               (Some (label_box l))) with
  | Returned (Some m) =>
      Returned (Some (Ocr.m_anchor_text m, Ocr.m_value_text m))
  | Returned None => Returned None
  | Raised e => Raised e
  end.

Definition run_extraction_ocr (reader_ok : bool)
  (open_doc : string -> outcome Ocr.Document)
  (basename : string -> string) :=
  run_extraction open_doc basename (ocr_match reader_ok).

End Batch.

(** ** Vocabulary of the statements about the native matcher *)

Module NativeSpec.

Import Fitz PyStr Native.
Local Open Scope Q_scope.

(** The text of an anchor box as the matcher reads it. *)
Definition box_text (a : Box) : string := strip (or_empty (name a)).

(** The two absolute differences the tolerance test compares. *)
Definition dx_diff (P R : Rect) (dx : Q) : Q := Qabs (x0 R - x0 P - dx).
Definition dy_diff (P R : Rect) (dy : Q) : Q := Qabs (y0 R - y0 P - dy).



(** [fitz.Rect(x, y, x + w, y + h)] *)
Definition rect_xywh (x y w h : Q) : Rect := mkRect x y (x + w) (y + h).

(** A candidate: a page index, the page and an occurrence on it. *)
Definition Candidate : Type := (nat * Page * Rect)%type.

(** All candidates of a document from page [page_idx] on: pages in page
    order, occurrences in the order the locator returns them. *)
Fixpoint candidates (anchor_text : string) (page_idx : nat) (pages : Document)
  : list Candidate :=
  match pages with
  | [] => []
  | None :: rest => candidates anchor_text (S page_idx) rest
  | Some page :: rest =>
      map (fun P => (page_idx, page, P)) (primary_instances page anchor_text)
      ++ candidates anchor_text (S page_idx) rest
  end.

Definition match_of (cfg : Config) (c : Candidate) : option Match :=
  let '(page_idx, page, P) := c in try_instance cfg page_idx page P.

(** A candidate succeeds: its secondary anchors verify and its value
    rectangle yields text. *)
Definition succeeds (cfg : Config) (c : Candidate) : bool :=
  let '(_, page, P) := c in
  all_secondary_match page P (secondaries cfg)
  && truthy (extract_value_text page (value_rect_at cfg page P)).

(** The match of the first candidate that succeeds. *)
Fixpoint first_match (cfg : Config) (cands : list Candidate) : option Match :=
  match cands with
  | [] => None
  | c :: rest =>
      if succeeds cfg c then match_of cfg c else first_match cfg rest
  end.

(** The candidates up to and including the first that succeeds. *)
Fixpoint upto_first (cfg : Config) (cands : list Candidate) : list Candidate :=
  match cands with
  | [] => []
  | c :: rest => if succeeds cfg c then [c] else c :: upto_first cfg rest
  end.

(** The candidates a run examined and the pages it loaded, in order. *)
Fixpoint checked (trace : list event) : list (nat * Rect) :=
  match trace with
  | [] => []
  | Checking i P :: rest => (i, P) :: checked rest
  | LoadPage _ :: rest => checked rest
  end.

Fixpoint loaded (trace : list event) : list nat :=
  match trace with
  | [] => []
  | LoadPage i :: rest => i :: loaded rest
  | Checking _ _ :: rest => loaded rest
  end.

Definition key_of (c : Candidate) : nat * Rect :=
  let '(page_idx, _, P) := c in (page_idx, P).

End NativeSpec.

(** ** Sample templates and documents *)

Module Samples.

Import Fitz.
Local Open Scope Q_scope.
Local Open Scope string_scope.

(** A label trained on "Balance" with the value 80 units to its right and
    a second anchor "Account Number:" 50 units above. *)
Definition balance_anchor : Box :=
  mkBox (Some "Balance") AnchorBox 100 200 60 12 None.

Definition account_anchor : Box :=
  mkBox (Some "Account Number:") AnchorBox 100 150 90 12 None.

Definition balance_value : Box :=
  mkBox None ValueBox 180 200 120 14 None.

Definition other_value : Box :=
  mkBox None ValueBox 300 400 10 10 None.

Definition letter : Rect := mkRect 0 0 612 792.

(** A page with one "Balance" and nothing to read at its value. *)
Definition blank_page : Native.Page :=
  Native.mkPage letter 0
    (fun needle =>
       if String.eqb needle "Balance" then [mkRect 100 200 160 212] else [])
    (fun _ => "")
    (fun _ => []).

(** A page with two "Balance", an "Account Number:" 100 units above the
    first one and exactly 50 + 50 below-left of the trained place of the
    second, and an account number to read. *)
Definition statement_page : Native.Page :=
  Native.mkPage letter 0
    (fun needle =>
       if String.eqb needle "Balance"
       then [mkRect 100 300 160 312; mkRect 100 500 160 512]
       else if String.eqb needle "Account Number:"
       then [mkRect 150 500 240 512]
       else [])
    (fun _ => "1234-5678-9012 ")
    (fun _ => []).

Definition two_pages : Native.Document := [Some blank_page; Some statement_page].


(** An OCR page: a heading, the anchor in capitals with blanks around it,
    and a crop that reads an account number. *)
Definition scanned_page : Ocr.Page :=
  Ocr.mkPage 2550 3300
    [Ocr.mkDetection ((0, 0), (10, 0), (10, 10), (0, 10)) "  " 1;
     Ocr.mkDetection ((300, 100), (900, 100), (900, 160), (300, 160))
                     "Statement" 1;
     Ocr.mkDetection ((300, 600), (700, 600), (700, 650), (300, 650))
                     " ACCOUNT NUMBER: 1234 " 1]
    (fun _ _ _ _ =>
       Some [Ocr.mkDetection ((0, 0), (10, 0), (10, 10), (0, 10)) "1234" 1]).

Definition ocr_anchor : Box :=
  mkBox (Some "Anchor: Account Number:") AnchorBox 300 600 400 50
        (Some "Account Number:").

Definition ocr_value : Box :=
  mkBox (Some "Value") ValueBox 720 600 300 50 None.

(** A batch of three files of which the second cannot be opened. *)
Definition three_files (pdf_path : string) : outcome Native.Document :=
  if String.eqb pdf_path "a.pdf" then Returned two_pages
  else if String.eqb pdf_path "c.pdf" then Returned two_pages
  else Raised OpenError.

Definition balance_label : Batch.Label :=
  Batch.mkLabel "Balance"
    (mkBox (Some "Balance") LabelBox 90 190 300 40 None)
    [balance_anchor; balance_value].

(** A label drawn with an anchor and no value. *)
Definition unfinished_label : Batch.Label :=
  Batch.mkLabel "Total"
    (mkBox (Some "Total") LabelBox 90 590 300 40 None)
    [balance_anchor].

Definition same_name (pdf_path : string) : string := pdf_path.

(** A page displayed 400 wide and 500 high, with rotation 90, and the
    trainer after rendering it. *)
Definition rotated_page : Trainer.PdfPage := Trainer.mkPdfPage 400 500 90.

Definition rendered : Trainer.Trainer :=
  Trainer.render_current_page Trainer.empty_trainer (0%nat, 0%nat)
    rotated_page.

End Samples.

(** ** Zoom controls: [zoom_in], [zoom_out], [zoom_reset] *)

Module Zoom.

Import Fitz.
Local Open Scope Q_scope.

(** [min(a, b)] and [max(a, b)] of Python: the first argument unless the
    second is strictly smaller (larger). *)
Definition py_min (a b : Q) : Q := if Qltb b a then b else a.
Definition py_max (a b : Q) : Q := if Qltb a b then b else a.

(** [self.zoom_scale = min(self.zoom_scale + 0.25, 5.0)] *)
Definition zoom_in (zoom_scale : Q) : Q := py_min (zoom_scale + (1 # 4)) 5.

(** [self.zoom_scale = max(self.zoom_scale - 0.25, 0.25)] *)
Definition zoom_out (zoom_scale : Q) : Q := py_max (zoom_scale - (1 # 4)) (1 # 4).

(** [self.zoom_scale = 1.0] *)
Definition zoom_reset (zoom_scale : Q) : Q := 1.

Inductive button : Type := ZoomIn | ZoomOut | ZoomReset.

Definition press (zoom_scale : Q) (b : button) : Q :=
  match b with
  | ZoomIn => zoom_in zoom_scale
  | ZoomOut => zoom_out zoom_scale
  | ZoomReset => zoom_reset zoom_scale
  end.

(** The zoom scale after a sequence of button presses. *)
Definition presses (zoom_scale : Q) (bs : list button) : Q :=
  fold_left press bs zoom_scale.

End Zoom.

(** ** Boxes on the canvas and their scaling ([OCRBox]) *)

Module Canvas.

Import Ocr.
Local Open Scope Q_scope.

(** An [OCRBox]: rectangle, name, type, database id, captured anchor text
    and children.  The parent link of a child is its place in the tree. *)
#[warnings="-register-all"]
Inductive OCRBox : Type :=
  | mkOCRBox (r : QRectF) (n : string) (t : box_type) (i : option Z)
             (a : string) (ch : list OCRBox).




Definition ob_children (b : OCRBox) : list OCRBox :=
  match b with mkOCRBox _ _ _ _ _ ch => ch end.

(** The body of [_scale_box_to_pdf_coords] of [modules.py] for a scale
    other than zero.  The new [OCRBox] starts with an empty
    [anchor_text]. *)
Fixpoint pdf_coords (scale : Q) (box : OCRBox) : OCRBox :=
  match box with
  | mkOCRBox r n t i _ ch =>
      mkOCRBox (mkQRectF (qx r / scale) (qy r / scale)
                         (qwidth r / scale) (qheight r / scale))
               n t i EmptyString (map (pdf_coords scale) ch)
  end.

(** [_scale_box_to_pdf_coords(box)]; [None] is the [ZeroDivisionError] of
    the first division when [self.zoom_scale] is zero. *)
Definition _scale_box_to_pdf_coords (scale : Q) (box : OCRBox)
  : option OCRBox :=
  if Qeq_bool scale 0 then None else Some (pdf_coords scale box).










End Canvas.

(** ** Saving a drawn box: [_save_box_to_db] of [modules.py] *)

Module Capture.

Import Fitz PyStr.
Local Open Scope Q_scope.

(** The name stored for a box: for an anchor on a known page, the text
    under the box or, failing that, under the box grown by 5 units; the
    name of the box otherwise. *)
Definition stored_name (page : option Native.Page) (t : box_type)
  (box_name : string) (pdf_x pdf_y pdf_w pdf_h : Q) : string :=
  match t, page with
  | AnchorBox, Some pg =>
      let r := mkRect pdf_x pdf_y (pdf_x + pdf_w) (pdf_y + pdf_h) in
      let extracted_text := strip (Native.get_text pg r) in
      if truthy extracted_text then extracted_text
      else
        let expanded_rect := rect_add r (-(5), -(5), 5, 5) in
        let extracted_text := strip (Native.get_text pg expanded_rect) in
        if truthy extracted_text then extracted_text else box_name
  | _, _ => box_name
  end.

(** The row [_save_box_to_db] adds for a box with rectangle [r] on the
    canvas; [scale] is [self.canvas.scale_factor], [place] the key of the
    page and the page itself when [pdf_idx] and [page_idx] are given.
    [None] is the [ZeroDivisionError] of a zero scale. *)
Definition _save_box_to_db (st : Trainer.Trainer) (scale : Q)
  (place : option (Trainer.Key * Native.Page))
  (r : Ocr.QRectF) (box_name : string) (t : box_type) : option Box :=
  if Qeq_bool scale 0 then None
  else
    let vis_x := Ocr.qx r / scale in
    let vis_y := Ocr.qy r / scale in
    let vis_w := Ocr.qwidth r / scale in
    let vis_h := Ocr.qheight r / scale in
    let '(pdf_x, pdf_y, pdf_w, pdf_h) :=
      Trainer.saved_coords st (option_map fst place)
        vis_x vis_y vis_w vis_h in
    Some (mkBox (Some (stored_name (option_map snd place) t box_name
                         pdf_x pdf_y pdf_w pdf_h))
                t pdf_x pdf_y pdf_w pdf_h None).

End Capture.

(** ** Naming a captured anchor: [on_box_created] of [ocr_module.py] *)

Module OcrTrain.

Import PyStr.

(** [anchor_text[:20] + "..." if len(anchor_text) > 20 else anchor_text] *)
Definition short_text (anchor_text : string) : string :=
  if (20 <? String.length anchor_text)%nat
  then (substring 0 20 anchor_text ++ "...")%string
  else anchor_text.

(** The [anchor_text] and the [name] of a new anchor box named
    [box_name] once the detector read [captured] inside it; nothing
    changes when it read nothing. *)
Definition on_box_created (box_name captured : string) : string * string :=
  if truthy captured
  then (captured, ("Anchor: " ++ short_text captured)%string)
  else (EmptyString, box_name).

(** The row [_save_box_to_db] of [ocr_module.py] adds for that box. *)
Definition stored_anchor (r : Ocr.QRectF) (box_name captured : string) : Box :=
  let '(a, n) := on_box_created box_name captured in
  mkBox (Some n) AnchorBox (Ocr.qx r) (Ocr.qy r) (Ocr.qwidth r)
        (Ocr.qheight r) (Some a).

End OcrTrain.

(** ** The labels and columns of a run: the head of [run_extraction] *)

Module Template.

Import Batch.
Local Open Scope string_scope.

(** A stored label box with its children. *)
Definition StoredLabel : Type := (Box * list Box)%type.

Definition raw_name (l : StoredLabel) : option string := name (fst l).

Definition name_eqb (a b : option string) : bool :=
  match a, b with
  | Some s, Some t => String.eqb s t
  | None, None => true
  | _, _ => false
  end.

(** [label_box.name not in [l['name'] for l in all_labels]] *)
Definition known (all_labels : list StoredLabel) (n : option string) : bool :=
  existsb (fun l => name_eqb (raw_name l) n) all_labels.

(** [for label_box in label_boxes], appending the labels not yet known. *)
Fixpoint add_labels (label_boxes all_labels : list StoredLabel)
  : list StoredLabel :=
  match label_boxes with
  | [] => all_labels
  | label_box :: rest =>
      if known all_labels (raw_name label_box)
      then add_labels rest all_labels
      else add_labels rest (all_labels ++ [label_box])
  end.

(** [for ocr_page in template.pages] *)
Definition collect_labels (pages : list (list StoredLabel))
  : list StoredLabel :=
  fold_left (fun all_labels label_boxes => add_labels label_boxes all_labels)
            pages [].

(** What the collection keeps true: the labels kept have distinct names,
    a name is kept exactly when it was seen, and every label kept is the
    first one seen with its name. *)
Definition kept_first (seen kept : list StoredLabel) : Prop :=
  NoDup (map raw_name kept) /\
  (forall n, In n (map raw_name seen) <-> In n (map raw_name kept)) /\
  (forall l, In l kept ->
     exists pre post,
       seen = (pre ++ l :: post)%list /\
       ~ In (raw_name l) (map raw_name pre)).

(** A name inside an f-string. *)
Definition fmt (n : option string) : string :=
  match n with
  | Some s => s
  | None => "None"
  end.

(** A collected label as the loop over the documents uses it. *)
Definition to_label (l : StoredLabel) : Label :=
  mkLabel (fmt (raw_name l)) (fst l) (snd l).

(** The column headers of the result table. *)
Fixpoint label_columns (labels : list Label) : list string :=
  match labels with
  | [] => []
  | l :: rest =>
      (label_name l ++ "_Anchor") :: (label_name l ++ "_Value")
      :: label_columns rest
  end.

Definition columns (labels : list Label) : list string :=
  "PDF Filename" :: label_columns labels.

(** The two texts the loop writes for a label: those of the match, or
    two empty strings. *)
Definition cells_of (r : outcome (option (string * string)))
  : string * string :=
  match r with
  | Returned (Some (a, v)) => (a, v)
  | _ => ("", "")
  end.

(** A string read backwards. *)
Fixpoint srev (s : string) : string :=
  match s with
  | EmptyString => EmptyString
  | String c s' => srev s' ++ String c EmptyString
  end.

(** [[row_data.get(col_name, "") for col_name in columns]]: the cells of
    a table row. *)
Definition table_row (labels : list Label) (row_data : Row) : list string :=
  map (dict_get row_data) (columns labels).

End Template.

(** ** The preview line of [_generate_extraction_backup] *)

Module Backup.

(** [value_text[:100] + "..." if len(value_text) > 100 else value_text] *)
Definition value_preview (value_text : string) : string :=
  if (100 <? String.length value_text)%nat
  then (substring 0 100 value_text ++ "...")%string
  else value_text.

End Backup.

(** ** More samples *)

Module MoreSamples.

Import Fitz.
Local Open Scope Q_scope.
Local Open Scope string_scope.


(** A page whose text under the anchor box reads " Balance ". *)
Definition training_page : Native.Page :=
  Native.mkPage Samples.letter 0
    (fun needle =>
       if String.eqb needle "Balance" then [mkRect 100 200 160 212] else [])
    (fun _ => " Balance ")
    (fun _ => []).

(** A template whose two pages both hold a label called "Balance". *)
Definition total_box : Box := mkBox (Some "Total") LabelBox 90 590 300 40 None.

Definition template_pages : list (list Template.StoredLabel) :=
  [[(Batch.label_box Samples.balance_label,
     Batch.children Samples.balance_label);
    (total_box, [Samples.balance_anchor])];
   [(Batch.label_box Samples.balance_label, [])]].

End MoreSamples.

(** ** Vocabulary of the statements about the geometry transform *)

Module GeometrySpec.

Local Open Scope Q_scope.




End GeometrySpec.

(** ** Vocabulary of the statements about rectangles *)

Module RectSpec.

Import Fitz.
Local Open Scope Q_scope.


(** Rectangle [a] lies inside rectangle [b]. *)
Definition inside (a b : Rect) : Prop :=
  x0 b <= x0 a /\ y0 b <= y0 a /\ x1 a <= x1 b /\ y1 a <= y1 b.

End RectSpec.

(** * Properties *)

(** ** Facts about the string primitives *)

Module PyStrFacts.

Import PyStr.
Local Open Scope string_scope.

Lemma append_empty_r (s : string) : s ++ "" = s.
Proof.
  induction s as [|c s IH]; simpl; [reflexivity | now rewrite IH].
Qed.

Lemma append_assoc (a b c : string) : (a ++ b) ++ c = a ++ (b ++ c).
Proof.
  induction a as [|ch a IH]; simpl; [reflexivity | now rewrite IH].
Qed.



Lemma lstrip_head (s : string) (c : ascii) (r : string) :
  lstrip s = String c r -> is_space c = false.
Proof.
  induction s as [|a s IH]; simpl; [discriminate |].
  destruct (is_space a) eqn:E; [exact IH |].
  intros H. injection H as -> _. exact E.
Qed.

Lemma rstrip_head (s : string) (c : ascii) (r : string) :
  rstrip s = String c r -> exists r0, s = String c r0.
Proof.
  destruct s as [|a s]; simpl; [discriminate |].
  destruct (is_space a && negb (truthy (rstrip s))); [discriminate |].
  intros H. injection H as -> _. now exists s.
Qed.

Lemma strip_head (s : string) (c : ascii) (r : string) :
  strip s = String c r -> is_space c = false.
Proof.
  unfold strip. intros H.
  destruct (rstrip_head _ H) as [r0 H0].
  exact (lstrip_head _ H0).
Qed.



Example strip_sample : strip "  Account Number: " = "Account Number:".
Proof. reflexivity. Qed.

Example split_sample :
  split "  Account   Number: x " = ["Account"; "Number:"; "x"].
Proof. reflexivity. Qed.

Example replace_sample :
  strip (replace "..." "" (replace "Anchor: " "" "Anchor: Account Numb..."))
  = "Account Numb".
Proof. reflexivity. Qed.

Example contains_sample :
  contains "date" "update" = true /\ contains "update" "date" = false.
Proof. split; reflexivity. Qed.

End PyStrFacts.

(** ** Facts about the native matcher *)

Module NativeFacts.

Import Fitz PyStr Native NativeSpec.
Local Open Scope Q_scope.






Lemma match_of_eq (cfg : Config) (i : nat) (page : Page) (P : Rect) :
  match_of cfg (i, page, P) = try_instance cfg i page P.
Proof. reflexivity. Qed.

Lemma try_instance_eq (cfg : Config) (i : nat) (page : Page) (P : Rect) :
  try_instance cfg i page P =
  if succeeds cfg (i, page, P)
  then Some (mkMatch i (primary_anchor_text cfg)
               (extract_value_text page (value_rect_at cfg page P))
               (value_rect_at cfg page P) (rotation page))
  else None.
Proof.
  unfold try_instance, succeeds.
  destruct (all_secondary_match page P (secondaries cfg)); simpl;
    [destruct (truthy _) |]; reflexivity.
Qed.

#[local] Arguments succeeds : simpl never.
#[local] Arguments match_of : simpl never.
#[local] Arguments Nat.sub : simpl never.

Lemma match_of_page (cfg : Config) (i : nat) (page : Page) (P : Rect)
  (m : Match) :
  match_of cfg (i, page, P) = Some m -> m_page m = i.
Proof.
  rewrite match_of_eq, try_instance_eq.
  destruct (succeeds cfg (i, page, P)); [|discriminate].
  intros H. injection H as <-. reflexivity.
Qed.

Lemma first_match_app (cfg : Config) (a b : list Candidate) :
  first_match cfg (a ++ b) =
  match first_match cfg a with
  | Some m => Some m
  | None => first_match cfg b
  end.
Proof.
  induction a as [|c a IH]; simpl; [reflexivity |].
  destruct (succeeds cfg c) eqn:E; [|exact IH].
  destruct c as [[i page] P]. now rewrite match_of_eq, try_instance_eq, E.
Qed.

Lemma upto_first_app (cfg : Config) (a b : list Candidate) :
  upto_first cfg (a ++ b) =
  match first_match cfg a with
  | Some _ => upto_first cfg a
  | None => a ++ upto_first cfg b
  end.
Proof.
  induction a as [|c a IH]; simpl; [reflexivity |].
  destruct (succeeds cfg c) eqn:E.
  - destruct c as [[i page] P]. now rewrite match_of_eq, try_instance_eq, E.
  - rewrite IH. destruct (first_match cfg a); reflexivity.
Qed.

Lemma upto_first_none (cfg : Config) (a : list Candidate) :
  first_match cfg a = None -> upto_first cfg a = a.
Proof.
  induction a as [|c a IH]; simpl; [reflexivity |].
  destruct (succeeds cfg c) eqn:E.
  - destruct c as [[i page] P]. rewrite match_of_eq, try_instance_eq, E.
    discriminate.
  - intros H. now rewrite IH.
Qed.

Lemma checked_app (a b : list event) : checked (a ++ b) = checked a ++ checked b.
Proof.
  induction a as [|[i|i P] a IH]; simpl; [reflexivity | exact IH | now rewrite IH].
Qed.

Lemma loaded_app (a b : list event) : loaded (a ++ b) = loaded a ++ loaded b.
Proof.
  induction a as [|[i|i P] a IH]; simpl; [reflexivity | now rewrite IH | exact IH].
Qed.

Lemma check_instances_spec (cfg : Config) (i : nat) (page : Page)
  (instances : list Rect) :
  let run := check_instances cfg i page instances in
  let cands := map (fun P => (i, page, P)) instances in
  fst run = first_match cfg cands /\
  checked (snd run) = map key_of (upto_first cfg cands) /\
  loaded (snd run) = [].
Proof.
  induction instances as [|P rest IH]; simpl; [auto |].
  rewrite match_of_eq, try_instance_eq.
  destruct (succeeds cfg (i, page, P)); simpl; [auto |].
  simpl in IH.
  destruct (check_instances cfg i page rest) as [r tr]; simpl in *.
  destruct IH as [H1 [H2 H3]]. now rewrite H1, H2, H3.
Qed.

Lemma check_instances_page (cfg : Config) (i : nat) (page : Page)
  (l : list Rect) (m : Match) :
  fst (check_instances cfg i page l) = Some m -> m_page m = i.
Proof.
  induction l as [|P l IH]; simpl; [discriminate |].
  destruct (try_instance cfg i page P) as [m0|] eqn:E0; simpl.
  - intros H. injection H as <-.
    apply (match_of_page cfg i page P). now rewrite match_of_eq.
  - destruct (check_instances cfg i page l); simpl in *. exact IH.
Qed.

(** A match found from page [i] on lies on a page of the document. *)
Lemma search_pages_page (cfg : Config) (pages : Document) (i : nat) (m : Match) :
  fst (search_pages cfg i pages) = Some m ->
  (i <= m_page m < i + length pages)%nat.
Proof.
  revert i; induction pages as [|[page|] rest IH]; intros i; simpl.
  - discriminate.
  - pose proof (@check_instances_page cfg i page
                  (primary_instances page (primary_anchor_text cfg))) as Hp.
    destruct (check_instances cfg i page _) as [found tr_page]; simpl in *.
    destruct found as [m'|]; simpl.
    + intros H. injection H as ->. specialize (Hp m eq_refl). lia.
    + specialize (IH (S i)).
      destruct (search_pages cfg (S i) rest) as [r tr]; simpl in *.
      intros H. apply IH in H. lia.
  - specialize (IH (S i)).
    destruct (search_pages cfg (S i) rest) as [r tr]; simpl in *.
    intros H. apply IH in H. lia.
Qed.

Lemma search_pages_spec (cfg : Config) (pages : Document) (i : nat) :
  let run := search_pages cfg i pages in
  let cands := candidates (primary_anchor_text cfg) i pages in
  fst run = first_match cfg cands /\
  checked (snd run) = map key_of (upto_first cfg cands) /\
  loaded (snd run) =
    seq i (match fst run with
           | Some m => S (m_page m) - i
           | None => length pages
           end).
Proof.
  revert i; induction pages as [|[page|] rest IH]; intros i.
  - simpl. auto.
  - pose proof (@search_pages_page cfg rest (S i)) as Hrest.
    specialize (IH (S i)).
    pose proof (@check_instances_page cfg i page
                  (primary_instances page (primary_anchor_text cfg))) as Hp.
    destruct (check_instances_spec cfg i page
                (primary_instances page (primary_anchor_text cfg)))
      as [H1 [H2 H3]].
    simpl in *.
    rewrite first_match_app, upto_first_app, <- H1.
    destruct (check_instances cfg i page _) as [found tr_page]; simpl in *.
    destruct found as [m|]; simpl.
    + rewrite H3, (Hp m eq_refl).
      replace (S i - i)%nat with 1%nat by lia. auto.
    + destruct (search_pages cfg (S i) rest) as [r tr]; simpl in *.
      destruct IH as [I1 [I2 I3]].
      rewrite (upto_first_none cfg _ (eq_sym H1)) in H2.
      rewrite checked_app, loaded_app, H2, H3, I2, I3, map_app. simpl.
      repeat split; auto.
      destruct r as [m|]; [|reflexivity].
      specialize (Hrest m eq_refl).
      replace (S (m_page m) - i)%nat with (S (S (m_page m) - S i)) by lia.
      reflexivity.
  - pose proof (@search_pages_page cfg rest (S i)) as Hrest.
    specialize (IH (S i)). simpl in *.
    destruct (search_pages cfg (S i) rest) as [r tr]; simpl in *.
    destruct IH as [I1 [I2 I3]]. rewrite I3.
    repeat split; auto.
    destruct r as [m|]; [|reflexivity].
    specialize (Hrest m eq_refl).
    replace (S (m_page m) - i)%nat with (S (S (m_page m) - S i)) by lia.
    reflexivity.
Qed.

Lemma label_config_cons (A0 : Box) (arest values : list Box) (cfg : Config) :
  label_config (A0 :: arest) values = Some cfg ->
  exists V0 vrest,
    values = V0 :: vrest /\
    truthy (box_text A0) = true /\
    cfg = mkConfig (box_text A0) (secondary_anchors A0 arest)
            (x V0 - x A0) (y V0 - y A0) (width V0) (height V0).
Proof.
  unfold label_config, box_text. destruct values as [|V0 vrest]; [discriminate |].
  destruct (truthy (strip (or_empty (name A0)))) eqn:E; [|discriminate].
  intros H. injection H as <-. exists V0, vrest. auto.
Qed.








Lemma first_match_in (cfg : Config) (cands : list Candidate) (m : Match) :
  first_match cfg cands = Some m ->
  exists c, In c cands /\ succeeds cfg c = true /\ match_of cfg c = Some m.
Proof.
  induction cands as [|c cands IH]; simpl; [discriminate |].
  destruct (succeeds cfg c) eqn:E.
  - intros H. exists c. auto.
  - intros H. destruct (IH H) as [c' [HIn H']]. exists c'. auto.
Qed.

Lemma in_candidates (anchor_text : string) (pages : Document) (i j : nat)
  (page : Page) (P : Rect) :
  In (j, page, P) (candidates anchor_text i pages) ->
  (i <= j)%nat /\
  nth_error pages (j - i) = Some (Some page) /\
  In P (primary_instances page anchor_text).
Proof.
  revert i; induction pages as [|[page0|] rest IH]; intros i; simpl.
  - tauto.
  - rewrite in_app_iff, in_map_iff. intros [[P0 [H HIn]] | H].
    + injection H as <- <- <-. rewrite Nat.sub_diag. simpl. auto.
    + apply IH in H as [Hle [Hn HIn]]. split; [lia |]. split; [|exact HIn].
      replace (j - i)%nat with (S (j - S i)) by lia. exact Hn.
  - intros H. apply IH in H as [Hle [Hn HIn]]. split; [lia |]. split; [|exact HIn].
    replace (j - i)%nat with (S (j - S i)) by lia. exact Hn.
Qed.

(** C3. The value rectangle of a returned match is the rectangle at
    [P + (V0 - A0)] with the width and height of [V0], normalised and
    intersected with the page rectangle, where [P] is the accepted
    occurrence of the primary anchor, [A0] the first anchor and [V0] the
    first value of the label; the further values of the label play no
    part in the run. *)
Theorem C3_value_rectangle :
  forall (doc : Document) (anchors values : list Box) (m : Match),
    fst (_find_box_on_pages doc anchors values) = Some m ->
    exists A0 arest V0 vrest page P,
      anchors = A0 :: arest /\
      values = V0 :: vrest /\
      nth_error doc (m_page m) = Some (Some page) /\
      In P (primary_instances page (box_text A0)) /\
      all_secondary_match page P (secondary_anchors A0 arest) = true /\
      m_value_rect m =
        rect_and
          (normalize
             (rect_xywh (x0 P + (x V0 - x A0)) (y0 P + (y V0 - y A0))
                        (width V0) (height V0)))
          (rect page) /\
      _find_box_on_pages doc anchors values =
      _find_box_on_pages doc anchors [V0].
Proof.
  intros doc anchors values m. unfold _find_box_on_pages.
  destruct (label_config anchors values) as [cfg|] eqn:Hcfg; [|discriminate].
  destruct anchors as [|A0 arest]; [discriminate |].
  destruct (label_config_cons _ _ _ Hcfg) as [V0 [vrest [-> [Ht Ecfg]]]].
  destruct (search_pages_spec cfg doc 0) as [H1 _]. rewrite H1.
  intros Hm. apply first_match_in in Hm as [[[j page] P] [HIn [Hs Hm]]].
  rewrite match_of_eq, try_instance_eq, Hs in Hm. injection Hm as <-.
  apply in_candidates in HIn as [_ [Hn HP]]. rewrite Nat.sub_0_r in Hn.
  exists A0, arest, V0, vrest, page, P. simpl.
  unfold succeeds in Hs. apply andb_true_iff in Hs as [Hs _].
  rewrite Ecfg in HP, Hs. simpl in HP, Hs.
  repeat split; auto.
  - rewrite Ecfg. reflexivity.
  - fold (box_text A0). rewrite Ht, Ecfg. reflexivity.
Qed.

(** C3 on the two-page document, with a second value box in the label. *)
Lemma C3_value_rectangle_witness :
  exists m,
    fst (_find_box_on_pages Samples.two_pages [Samples.balance_anchor]
           [Samples.balance_value; Samples.other_value]) = Some m /\
    exists A0 arest V0 vrest page P,
      [Samples.balance_anchor] = A0 :: arest /\
      [Samples.balance_value; Samples.other_value] = V0 :: vrest /\
      nth_error Samples.two_pages (m_page m) = Some (Some page) /\
      In P (primary_instances page (box_text A0)) /\
      all_secondary_match page P (secondary_anchors A0 arest) = true /\
      m_value_rect m =
        rect_and
          (normalize
             (rect_xywh (x0 P + (x V0 - x A0)) (y0 P + (y V0 - y A0))
                        (width V0) (height V0)))
          (rect page) /\
      _find_box_on_pages Samples.two_pages [Samples.balance_anchor]
        [Samples.balance_value; Samples.other_value] =
      _find_box_on_pages Samples.two_pages [Samples.balance_anchor] [V0].
Proof.
  eexists. split; [vm_compute; reflexivity |].
  apply C3_value_rectangle. vm_compute. reflexivity.
Defined.



(** With the second anchor in the label, the first "Balance" of the
    statement page is rejected and the second one, whose
    "Account Number:" lies within the tolerance, gives the match. *)
Example disambiguation_sample :
  option_map m_value_rect
    (fst (_find_box_on_pages Samples.two_pages
            [Samples.balance_anchor; Samples.account_anchor]
            [Samples.balance_value]))
  = Some (mkRect 180 500 300 514).
Proof. vm_compute. reflexivity. Qed.

(** The guards of the native matcher. *)
Lemma find_box_on_pages_unusable (doc : Document) (anchors values : list Box) :
  anchors = [] \/ values = [] \/
  (exists A0 arest, anchors = A0 :: arest /\ box_text A0 = EmptyString) ->
  _find_box_on_pages doc anchors values = (None, []).
Proof.
  unfold _find_box_on_pages, label_config, box_text.
  intros [-> | [-> | [A0 [arest [-> H]]]]].
  - reflexivity.
  - destruct anchors; reflexivity.
  - destruct values; [reflexivity |]. now rewrite H.
Qed.

End NativeFacts.

(** ** Facts about the OCR matcher *)

Module OcrFacts.

Import Fitz PyStr Ocr.
Local Open Scope Q_scope.













(** C10. The run of the OCR matcher does not depend on the anchors after
    the first: two anchor lists with the same head give the same result
    and the same trace, those of the head alone. *)
Theorem C10_ocr_secondary_anchors_unused :
  forall (reader_ok : bool) (doc : Document) (A0 : Box)
         (rest1 rest2 values : list Box) (label_box : option Box),
    _find_box_with_ocr reader_ok doc (A0 :: rest1) values label_box =
    _find_box_with_ocr reader_ok doc (A0 :: rest2) values label_box /\
    _find_box_with_ocr reader_ok doc (A0 :: rest1) values label_box =
    _find_box_with_ocr reader_ok doc [A0] values label_box.
Proof.
  intros. unfold _find_box_with_ocr. split; reflexivity.
Qed.

(** A run on the scanned page: the blank detection is dropped, the
    heading does not match, the third token does; the value is read from
    the crop at the trained offset. *)
Example ocr_run_sample :
  _find_box_with_ocr true [Some Samples.scanned_page] [Samples.ocr_anchor]
    [Samples.ocr_value] None
  = (Returned
       (Some (mkMatch 0 "ACCOUNT NUMBER: 1234" "1234"
                (mkRect (51840 # 300) (43200 # 300) (73440 # 300)
                        (46800 # 300))
                None)),
     [LoadPage 0; ReadFull 0; ReadCrop 0 720 600 1020 650]).
Proof. vm_compute. reflexivity. Qed.

(** The guard of the OCR matcher. *)
Lemma find_box_with_ocr_unusable (reader_ok : bool) (doc : Document)
  (anchors values : list Box) (label_box : option Box) :
  anchors = [] \/ values = [] ->
  _find_box_with_ocr reader_ok doc anchors values label_box
  = (Returned None, []).
Proof.
  unfold _find_box_with_ocr. intros [-> | ->]; [reflexivity |].
  destruct anchors; reflexivity.
Qed.

End OcrFacts.

(** ** Facts about the geometry transform *)

Module TrainerFacts.

Import Trainer.
Local Open Scope Q_scope.

Lemma key_eqb_refl (k : Key) : key_eqb k k = true.
Proof. unfold key_eqb. now rewrite !Nat.eqb_refl. Qed.

(** C4 as stated fails: at rotation 45 the transform returns its input
    rectangle and raises nothing. *)
Lemma C4_unsupported_rotation_counterexample :
  supported_rotation 45 = false /\
  call_transform_visual_to_pdf_coords 30 60 200 10 400 500 45
  = Returned (30, 60, 200, 10) /\
  call_transform_visual_to_pdf_coords 30 60 200 10 400 500 45
  <> Raised InvalidRotation.
Proof.
  split; [reflexivity |]. split; [reflexivity | discriminate].
Qed.

(** C4, amended.  For every rotation outside 0, 90, 180 and 270 the
    transform returns the input rectangle unchanged; it raises no error. *)
Theorem C4_unsupported_rotation_is_identity :
  forall (x y w h page_width page_height : Q) (rotation : Z),
    supported_rotation rotation = false ->
    call_transform_visual_to_pdf_coords x y w h page_width page_height rotation
    = Returned (x, y, w, h).
Proof.
  intros x y w h pw ph rotation H.
  unfold call_transform_visual_to_pdf_coords, transform_visual_to_pdf_coords.
  unfold supported_rotation in H.
  destruct (rotation =? 0)%Z; [discriminate |].
  destruct (rotation =? 90)%Z; [discriminate |].
  destruct (rotation =? 180)%Z; [discriminate |].
  destruct (rotation =? 270)%Z; [discriminate |].
  reflexivity.
Qed.

Lemma C4_unsupported_rotation_is_identity_witness :
  call_transform_visual_to_pdf_coords 30 60 200 10 400 500 45
  = Returned (30, 60, 200, 10).
Proof.
  apply C4_unsupported_rotation_is_identity. reflexivity.
Defined.

(** C5 as stated fails: on a page shown 400 wide and 500 high with
    rotation 90, the box (30, 60, 200, 10) is stored with y = 400 - 30 - 200
    = 170, while the stated rule, which subtracts from the visual height,
    gives 500 - 30 - 200 = 270. *)
Lemma C5_rotation_90_counterexample :
  saved_coords Samples.rendered (Some (0%nat, 0%nat)) 30 60 200 10
  = (60, 400 - 30 - 200, 10, 200) /\
  saved_coords Samples.rendered (Some (0%nat, 0%nat)) 30 60 200 10
  <> spec_visual_to_raw_90 Samples.rotated_page 30 60 200 10.
Proof.
  split; [reflexivity |]. vm_compute. discriminate.
Qed.

(** C5, amended.  At rotation 90 the transform returns
    [raw.x = visual.y], [raw.y = page_width - visual.x - visual.width],
    [raw.width = visual.height], [raw.height = visual.width], where
    [page_width] is the page-width argument; for a box saved on a rendered
    page that argument is [page.rect.width], the width of the page as
    displayed. *)
Theorem C5_rotation_90 :
  forall (x y w h page_width page_height : Q),
    transform_visual_to_pdf_coords x y w h page_width page_height 90
    = (y, page_width - x - w, h, w) /\
    forall (st : Trainer) (key : Key) (page : PdfPage),
      page_rotation page = 90%Z ->
      saved_coords (render_current_page st key page) (Some key) x y w h
      = (y, rect_width page - x - w, h, w).
Proof.
  intros x y w h pw ph. split; [reflexivity |].
  intros st key page Hrot.
  unfold saved_coords, render_current_page. simpl.
  rewrite key_eqb_refl, Hrot. reflexivity.
Qed.

Lemma C5_rotation_90_witness :
  saved_coords Samples.rendered (Some (0%nat, 0%nat)) 30 60 200 10
  = (60, 400 - 30 - 200, 10, 200).
Proof.
  apply (proj2 (C5_rotation_90 30 60 200 10 0 0) empty_trainer (0%nat, 0%nat)
           Samples.rotated_page).
  reflexivity.
Defined.

End TrainerFacts.

(** ** Facts about the batch loop *)

Module BatchFacts.

Import PyStr Batch.

Lemma dict_get_set_same (row : Row) (key v : string) :
  dict_get (dict_set row key v) key = v.
Proof.
  induction row as [|[k old] row IH]; simpl.
  - now rewrite String.eqb_refl.
  - destruct (String.eqb k key) eqn:E; simpl; rewrite E; auto.
Qed.

Lemma dict_get_set_other (row : Row) (key key' v : string) :
  key <> key' ->
  dict_get (dict_set row key v) key' = dict_get row key'.
Proof.
  intros Hne. induction row as [|[k old] row IH]; simpl.
  - destruct (String.eqb key key') eqn:E; [|reflexivity].
    apply String.eqb_eq in E. contradiction.
  - destruct (String.eqb k key) eqn:E; simpl.
    + apply String.eqb_eq in E. subst k.
      destruct (String.eqb key key') eqn:E'; [|reflexivity].
      apply String.eqb_eq in E'. contradiction.
    + destruct (String.eqb k key'); auto.
Qed.

Lemma columns_differ (n : string) :
  (n ++ "_Value")%string <> (n ++ "_Anchor")%string.
Proof.
  induction n as [|c n IH]; simpl; [discriminate |].
  intros H. injection H as H. auto.
Qed.

Section LoopFacts.

Variable Doc : Type.
Variable open_doc : string -> outcome Doc.
Variable basename : string -> string.
Variable find_match : Doc -> Label -> outcome (option (string * string)).

Let row_is (labels : list Label) (pdf_path : string) (row : Row) : Prop :=
  row_of open_doc basename find_match labels pdf_path = Returned row.

Lemma extraction_loop_completes (labels : list Label) (paths : list string)
  (rows acc : list Row) :
  Forall2 (row_is labels) paths rows ->
  extraction_loop open_doc basename find_match labels paths acc
  = (acc ++ rows, None).
Proof.
  intros H. revert acc. induction H as [|p r paths rows Hp _ IH]; intros acc; simpl.
  - now rewrite app_nil_r.
  - unfold row_is, row_of in Hp.
    destruct (open_doc p) as [doc|e]; [|discriminate].
    rewrite Hp, IH, <- app_assoc. reflexivity.
Qed.

Lemma extraction_loop_aborts (labels : list Label) (pre post : list string)
  (bad : string) (e : exn) (rows acc : list Row) :
  Forall2 (row_is labels) pre rows ->
  row_of open_doc basename find_match labels bad = Raised e ->
  extraction_loop open_doc basename find_match labels (pre ++ bad :: post) acc
  = (acc ++ rows, Some e).
Proof.
  intros H Hbad. revert acc.
  induction H as [|p r pre rows Hp _ IH]; intros acc; simpl.
  - unfold row_of in Hbad. rewrite app_nil_r.
    destruct (open_doc bad) as [doc|e']; [now rewrite Hbad |].
    now injection Hbad as ->.
  - unfold row_is, row_of in Hp.
    destruct (open_doc p) as [doc|e']; [|discriminate].
    rewrite Hp, IH, <- app_assoc. reflexivity.
Qed.

End LoopFacts.

Local Open Scope string_scope.

(** C6 as stated fails: in a batch of three documents whose second cannot
    be opened, the run ends with one row, not two, and the third document
    is not processed. *)
Lemma C6_batch_resilience_counterexample :
  length (fst (run_extraction_native Samples.three_files Samples.same_name
                 [Samples.balance_label] ["a.pdf"; "b.pdf"; "c.pdf"]))
  = 1%nat /\
  snd (run_extraction_native Samples.three_files Samples.same_name
         [Samples.balance_label] ["a.pdf"; "b.pdf"; "c.pdf"])
  = Some OpenError /\
  length (fst (run_extraction_native Samples.three_files Samples.same_name
                 [Samples.balance_label] ["a.pdf"; "b.pdf"; "c.pdf"]))
  <> 2%nat.
Proof.
  split; [vm_compute; reflexivity |].
  split; [vm_compute; reflexivity |].
  vm_compute. discriminate.
Qed.

(** C6, amended.  The batch loop runs inside one [try]: when a document
    fails to open (or its row raises), the run ends there with the rows of
    the documents before it, the failure is reported and no later document
    is processed, whatever follows in the batch; when every document
    yields its row, the run returns one row per document, in order. *)
Theorem C6_batch_stops_at_first_failure :
  forall (Doc : Type) (open_doc : string -> outcome Doc)
         (basename : string -> string)
         (find_match : Doc -> Label -> outcome (option (string * string)))
         (labels : list Label),
    (forall pre bad post rows e,
       Forall2 (fun p r =>
                  row_of open_doc basename find_match labels p = Returned r)
               pre rows ->
       open_doc bad = Raised e ->
       run_extraction open_doc basename find_match labels
         (pre ++ bad :: post)%list = (rows, Some e) /\
       length rows = length pre) /\
    (forall paths rows,
       Forall2 (fun p r =>
                  row_of open_doc basename find_match labels p = Returned r)
               paths rows ->
       run_extraction open_doc basename find_match labels paths
       = (rows, None) /\
       length rows = length paths).
Proof.
  intros Doc open_doc basename find_match labels. split.
  - intros pre bad post rows e Hpre Hbad. split.
    + unfold run_extraction.
      rewrite (@extraction_loop_aborts Doc open_doc basename find_match labels
                 pre post bad e rows []); auto.
      unfold row_of. now rewrite Hbad.
    + symmetry. exact (Forall2_length Hpre).
  - intros paths rows H. split.
    + unfold run_extraction.
      now rewrite (@extraction_loop_completes Doc open_doc basename find_match
                     labels paths rows []).
    + symmetry. exact (Forall2_length H).
Qed.

(** C6 on the batch of three: one row, for "a.pdf". *)
Lemma C6_batch_stops_at_first_failure_witness :
  run_extraction_native Samples.three_files Samples.same_name
    [Samples.balance_label] (["a.pdf"] ++ "b.pdf" :: ["c.pdf"])%list
  = ([[("PDF Filename", "a.pdf"); ("Balance_Anchor", "Balance");
       ("Balance_Value", "1234-5678-9012")]], Some OpenError) /\
  length [[("PDF Filename", "a.pdf"); ("Balance_Anchor", "Balance");
           ("Balance_Value", "1234-5678-9012")]] = length ["a.pdf"].
Proof.
  apply (proj1 (C6_batch_stops_at_first_failure Samples.three_files
                  Samples.same_name native_match [Samples.balance_label])).
  - constructor; [vm_compute; reflexivity | constructor].
  - reflexivity.
Defined.

(** C9. For a label without anchor or without value (and, on the native
    path, with a primary anchor whose name is empty once stripped) the
    matcher returns no match on every document, raises nothing and loads
    no page: its trace is empty.  The batch loop then writes the empty
    string in both cells of the label. *)
Theorem C9_unusable_label_is_skipped :
  forall (l : Label),
    (anchors_of l = [] \/ values_of l = [] \/
     (exists A0 arest,
        anchors_of l = A0 :: arest /\ NativeSpec.box_text A0 = "") ->
     forall doc,
       Native._find_box_on_pages doc (anchors_of l) (values_of l)
       = (None, []) /\
       native_match doc l = Returned None) /\
    (anchors_of l = [] \/ values_of l = [] ->
     forall reader_ok doc label_box,
       Ocr._find_box_with_ocr reader_ok doc (anchors_of l) (values_of l)
         label_box = (Returned None, []) /\
       ocr_match reader_ok doc l = Returned None) /\
    (forall (Doc : Type)
            (find_match : Doc -> Label -> outcome (option (string * string)))
            (doc : Doc) (rest : list Label) (row : Row),
       find_match doc l = Returned None ->
       exists row',
         fill_row find_match doc (l :: rest) row
         = fill_row find_match doc rest row' /\
         dict_get row' (label_name l ++ "_Anchor") = "" /\
         dict_get row' (label_name l ++ "_Value") = "").
Proof.
  intros l. split; [|split].
  - intros H doc.
    pose proof (NativeFacts.find_box_on_pages_unusable doc H) as E.
    split; [exact E |]. unfold native_match. now rewrite E.
  - intros H reader_ok doc lb. split.
    + now apply OcrFacts.find_box_with_ocr_unusable.
    + unfold ocr_match.
      now rewrite (OcrFacts.find_box_with_ocr_unusable reader_ok doc
                     (Some (label_box l)) H).
  - intros Doc find_match doc rest row H. simpl. rewrite H.
    eexists. split; [reflexivity |]. split.
    + rewrite dict_get_set_other by apply columns_differ.
      apply dict_get_set_same.
    + apply dict_get_set_same.
Qed.

(** C9 on a label drawn with an anchor and no value. *)
Lemma C9_unusable_label_is_skipped_witness :
  Native._find_box_on_pages Samples.two_pages
    (anchors_of Samples.unfinished_label)
    (values_of Samples.unfinished_label) = (None, []) /\
  native_match Samples.two_pages Samples.unfinished_label = Returned None.
Proof.
  apply (proj1 (C9_unusable_label_is_skipped Samples.unfinished_label)).
  right. left. reflexivity.
Defined.

End BatchFacts.

(** ** More about the geometry transform *)

Module GeometryExtras.

Import Trainer GeometrySpec.
Local Open Scope Q_scope.





End GeometryExtras.

(** ** The zoom controls *)

Module ZoomExtras.

Import Fitz Zoom.
Local Open Scope Q_scope.


Lemma Qltb_false (a b : Q) : Qltb a b = false <-> b <= a.
Proof.
  unfold Qltb. rewrite negb_false_iff. apply Qle_bool_iff.
Qed.

Lemma press_range (z : Q) (b : button) :
  (1 # 4) <= z <= 5 -> (1 # 4) <= press z b <= 5.
Proof.
  intros [Hlo Hhi]. destruct b; simpl.
  - unfold zoom_in, py_min. destruct (Qltb 5 (z + (1 # 4))) eqn:E.
    + lra.
    + apply Qltb_false in E. lra.
  - unfold zoom_out, py_max. destruct (Qltb (z - (1 # 4)) (1 # 4)) eqn:E.
    + lra.
    + apply Qltb_false in E. lra.
  - unfold zoom_reset. lra.
Qed.

Lemma press_positive (z : Q) (b : button) : 0 < z -> 0 < press z b.
Proof.
  intros Hz. destruct b; simpl.
  - unfold zoom_in, py_min. destruct (Qltb 5 (z + (1 # 4))); lra.
  - unfold zoom_out, py_max. destruct (Qltb (z - (1 # 4)) (1 # 4)) eqn:E.
    + lra.
    + apply Qltb_false in E. lra.
  - unfold zoom_reset. lra.
Qed.

(** X4. Whatever zoom buttons are pressed, a zoom scale between 0.25 and 5
    stays between 0.25 and 5, and a positive zoom scale stays positive. *)
Theorem zoom_stays_in_range :
  forall (bs : list button) (zoom_scale : Q),
    ((1 # 4) <= zoom_scale <= 5 -> (1 # 4) <= presses zoom_scale bs <= 5) /\
    (0 < zoom_scale -> 0 < presses zoom_scale bs).
Proof.
  unfold presses. induction bs as [|b bs IH]; intros z; simpl.
  - auto.
  - split; intros H.
    + apply IH. now apply press_range.
    + apply IH. now apply press_positive.
Qed.

Lemma zoom_stays_in_range_witness :
  (1 # 4) <= presses 1 [ZoomOut; ZoomOut; ZoomOut; ZoomOut; ZoomIn] <= 5.
Proof.
  apply (proj1 (zoom_stays_in_range
                  [ZoomOut; ZoomOut; ZoomOut; ZoomOut; ZoomIn] 1)).
  split; discriminate.
Defined.



End ZoomExtras.

(** ** Scaling the boxes of the canvas *)

Module CanvasExtras.

Import Ocr Canvas.
Local Open Scope Q_scope.








End CanvasExtras.

(** ** More about the string primitives *)

Module PyStrExtras.

Import PyStr.
Local Open Scope string_scope.

Lemma rstrip_idem (s : string) : rstrip (rstrip s) = rstrip s.
Proof.
  induction s as [|c s IH]; simpl; [reflexivity |].
  destruct (is_space c && negb (truthy (rstrip s))) eqn:E; [reflexivity |].
  simpl. now rewrite IH, E.
Qed.

Lemma lstrip_no_space (c : ascii) (r : string) :
  is_space c = false -> lstrip (String c r) = String c r.
Proof. intros H. simpl. now rewrite H. Qed.

(** Stripping twice is stripping once. *)
Lemma strip_idem (s : string) : strip (strip s) = strip s.
Proof.
  destruct (strip s) as [|c r] eqn:E; [reflexivity |].
  pose proof (@PyStrFacts.strip_head s c r E) as Hc.
  unfold strip at 1. rewrite (@lstrip_no_space c r Hc).
  rewrite <- E. unfold strip. apply rstrip_idem.
Qed.

End PyStrExtras.

(** ** More about the native matcher *)

Module NativeExtras.

Import Fitz PyStr Native NativeSpec RectSpec.
Local Open Scope Q_scope.

Lemma rect_and_inside (a b : Rect) :
  is_empty (rect_and a b) = false -> inside (rect_and a b) b.
Proof.
  unfold rect_and.
  destruct (is_empty b) eqn:Eb; [congruence |].
  destruct (is_empty a) eqn:Ea; [congruence |].
  intros _. unfold inside. simpl. repeat split.
  - destruct (Qltb (x0 a) (x0 b)) eqn:E; [apply Qle_refl |].
    now apply ZoomExtras.Qltb_false in E.
  - destruct (Qltb (y0 a) (y0 b)) eqn:E; [apply Qle_refl |].
    now apply ZoomExtras.Qltb_false in E.
  - destruct (Qltb (x1 b) (x1 a)) eqn:E; [apply Qle_refl |].
    now apply ZoomExtras.Qltb_false in E.
  - destruct (Qltb (y1 b) (y1 a)) eqn:E; [apply Qle_refl |].
    now apply ZoomExtras.Qltb_false in E.
Qed.

Lemma extract_value_text_empty_rect (page : Page) (r : Rect) :
  truthy (extract_value_text page r) = true -> is_empty r = false.
Proof.
  unfold extract_value_text. destruct (is_empty r); [discriminate | reflexivity].
Qed.

Lemma extract_value_text_stripped (page : Page) (r : Rect) :
  strip (extract_value_text page r) = extract_value_text page r.
Proof.
  unfold extract_value_text. destruct (is_empty r); [reflexivity |].
  cbv zeta.
  set (A := strip (get_text page r)).
  set (B := strip (get_text page _)).
  set (C := strip (blocks_text _)).
  destruct (truthy A) eqn:EA; [rewrite EA | destruct (truthy B) eqn:EB];
    subst A B C; apply PyStrExtras.strip_idem.
Qed.

(** Where a returned match comes from. *)
Lemma match_origin (doc : Document) (anchors values : list Box) (m : Match) :
  fst (_find_box_on_pages doc anchors values) = Some m ->
  exists A0 arest cfg page P,
    anchors = A0 :: arest /\
    label_config anchors values = Some cfg /\
    primary_anchor_text cfg = box_text A0 /\
    nth_error doc (m_page m) = Some (Some page) /\
    succeeds cfg (m_page m, page, P) = true /\
    m = mkMatch (m_page m) (primary_anchor_text cfg)
          (extract_value_text page (value_rect_at cfg page P))
          (value_rect_at cfg page P) (rotation page).
Proof.
  unfold _find_box_on_pages.
  destruct (label_config anchors values) as [cfg|] eqn:Hcfg; [|discriminate].
  destruct anchors as [|A0 arest]; [discriminate |].
  destruct (NativeFacts.label_config_cons _ _ _ Hcfg) as [V0 [vrest [-> [Ht Ecfg]]]].
  destruct (NativeFacts.search_pages_spec cfg doc 0) as [H1 _]. rewrite H1.
  intros Hm.
  apply NativeFacts.first_match_in in Hm as [[[j page] P] [HIn [Hs Hm]]].
  rewrite NativeFacts.match_of_eq, NativeFacts.try_instance_eq, Hs in Hm.
  injection Hm as <-.
  apply NativeFacts.in_candidates in HIn as [_ [Hn _]].
  rewrite Nat.sub_0_r in Hn.
  exists A0, arest, cfg, page, P. simpl.
  repeat split; auto. now rewrite Ecfg.
Qed.

(** X8. The value rectangle of a returned match is never empty and never
    reaches outside the rectangle of the page it was found on, and the
    rotation the match reports is that of this page. *)
Theorem match_rectangle_on_page :
  forall (doc : Document) (anchors values : list Box) (m : Match),
    fst (_find_box_on_pages doc anchors values) = Some m ->
    exists page,
      nth_error doc (m_page m) = Some (Some page) /\
      is_empty (m_value_rect m) = false /\
      inside (m_value_rect m) (rect page) /\
      m_target_rotation m = rotation page.
Proof.
  intros doc anchors values m Hm.
  destruct (match_origin _ _ _ Hm)
    as [A0 [arest [cfg [page [P [_ [_ [_ [Hn [Hs Em]]]]]]]]]].
  exists page. rewrite Em. simpl.
  unfold succeeds in Hs. apply andb_true_iff in Hs as [_ Ht].
  apply extract_value_text_empty_rect in Ht.
  split; [now rewrite Em in Hn |].
  split; [exact Ht |].
  split; [|reflexivity].
  unfold value_rect_at in *. now apply rect_and_inside.
Qed.

Lemma match_rectangle_on_page_witness :
  exists page,
    nth_error Samples.two_pages 1 = Some (Some page) /\
    is_empty (mkRect 180 300 300 314) = false /\
    inside (mkRect 180 300 300 314) (rect page) /\
    0%Z = rotation page.
Proof.
  exact (@match_rectangle_on_page Samples.two_pages [Samples.balance_anchor]
           [Samples.balance_value]
           (mkMatch 1 "Balance" "1234-5678-9012" (mkRect 180 300 300 314) 0)
           eq_refl).
Defined.

(** X9. The texts of a returned match are clean: the value text is not
    empty and has no whitespace at either end, and the anchor text is the
    name of the first anchor without the whitespace around it. *)
Theorem match_texts_are_stripped :
  forall (doc : Document) (anchors values : list Box) (m : Match),
    fst (_find_box_on_pages doc anchors values) = Some m ->
    truthy (m_value_text m) = true /\
    strip (m_value_text m) = m_value_text m /\
    exists A0 arest,
      anchors = A0 :: arest /\
      m_anchor_text m = strip (or_empty (name A0)) /\
      truthy (m_anchor_text m) = true.
Proof.
  intros doc anchors values m Hm.
  destruct (match_origin _ _ _ Hm)
    as [A0 [arest [cfg [page [P [Ea [Hcfg [Ht [Hn [Hs Em]]]]]]]]]].
  rewrite Em. simpl.
  unfold succeeds in Hs. apply andb_true_iff in Hs as [_ Hv].
  split; [exact Hv |]. split; [apply extract_value_text_stripped |].
  exists A0, arest. split; [exact Ea |]. split; [exact Ht |].
  rewrite Ea in Hcfg.
  destruct (NativeFacts.label_config_cons _ _ _ Hcfg) as [V0 [vrest [_ [H _]]]].
  now rewrite Ht.
Qed.

Lemma match_texts_are_stripped_witness :
  truthy "1234-5678-9012" = true /\
  strip "1234-5678-9012" = "1234-5678-9012"%string /\
  exists A0 arest,
    [Samples.balance_anchor] = A0 :: arest /\
    "Balance"%string = strip (or_empty (name A0)) /\
    truthy "Balance" = true.
Proof.
  exact (@match_texts_are_stripped Samples.two_pages [Samples.balance_anchor]
           [Samples.balance_value]
           (mkMatch 1 "Balance" "1234-5678-9012" (mkRect 180 300 300 314) 0)
           eq_refl).
Defined.

(** *** The secondary anchors as a set of constraints *)

Lemma try_instance_ext (t : string) (s1 s2 : list Secondary) (dx dy w h : Q)
  (i : nat) (page : Page) (P : Rect) :
  all_secondary_match page P s1 = all_secondary_match page P s2 ->
  try_instance (mkConfig t s1 dx dy w h) i page P =
  try_instance (mkConfig t s2 dx dy w h) i page P.
Proof.
  intros H. unfold try_instance. simpl. now rewrite H.
Qed.

Lemma search_pages_ext (t : string) (s1 s2 : list Secondary) (dx dy w h : Q) :
  (forall page P,
     all_secondary_match page P s1 = all_secondary_match page P s2) ->
  forall pages i,
    search_pages (mkConfig t s1 dx dy w h) i pages =
    search_pages (mkConfig t s2 dx dy w h) i pages.
Proof.
  intros H.
  assert (forall i page l,
            check_instances (mkConfig t s1 dx dy w h) i page l =
            check_instances (mkConfig t s2 dx dy w h) i page l) as Hc.
  { intros i page l. induction l as [|P l IH]; simpl; [reflexivity |].
    now rewrite (try_instance_ext t s1 s2 dx dy w h i page P (H page P)), IH. }
  induction pages as [|[page|] rest IH]; intros i; simpl.
  - reflexivity.
  - now rewrite Hc, IH.
  - now rewrite IH.
Qed.

Lemma secondary_anchors_perm (A0 : Box) (r1 r2 : list Box) :
  Permutation r1 r2 ->
  Permutation (secondary_anchors A0 r1) (secondary_anchors A0 r2).
Proof.
  induction 1 as [|a l l' _ IH|a b l|l l' l'' _ IH1 _ IH2]; simpl.
  - constructor.
  - destruct (truthy _); [now constructor | exact IH].
  - destruct (truthy (strip (or_empty (name b))));
      destruct (truthy (strip (or_empty (name a))));
      try apply Permutation_refl. apply perm_swap.
  - now apply perm_trans with (secondary_anchors A0 l').
Qed.

Lemma forallb_perm (A : Type) (f : A -> bool) (l1 l2 : list A) :
  Permutation l1 l2 -> forallb f l1 = forallb f l2.
Proof.
  induction 1 as [|a l l' _ IH|a b l|l l' l'' _ IH1 _ IH2]; simpl.
  - reflexivity.
  - now rewrite IH.
  - destruct (f a), (f b); reflexivity.
  - congruence.
Qed.

(** X10. The order of the secondary anchors of a label does not matter:
    listing the anchors after the first one in another order gives the
    same result and the same run. *)
Theorem secondary_anchor_order_is_irrelevant :
  forall (doc : Document) (A0 : Box) (rest rest' values : list Box),
    Permutation rest rest' ->
    _find_box_on_pages doc (A0 :: rest) values =
    _find_box_on_pages doc (A0 :: rest') values.
Proof.
  intros doc A0 rest rest' values Hperm.
  unfold _find_box_on_pages, label_config.
  destruct values as [|V0 vrest]; [reflexivity |].
  destruct (truthy (strip (or_empty (name A0)))); [|reflexivity].
  apply search_pages_ext. intros page P.
  apply forallb_perm. now apply secondary_anchors_perm.
Qed.

Lemma secondary_anchor_order_is_irrelevant_witness :
  _find_box_on_pages Samples.two_pages
    (Samples.balance_anchor :: [Samples.account_anchor; Samples.balance_anchor])
    [Samples.balance_value] =
  _find_box_on_pages Samples.two_pages
    (Samples.balance_anchor :: [Samples.balance_anchor; Samples.account_anchor])
    [Samples.balance_value].
Proof.
  apply secondary_anchor_order_is_irrelevant. apply perm_swap.
Defined.

Lemma secondary_anchors_app (A0 : Box) (a b : list Box) :
  secondary_anchors A0 (a ++ b) =
  secondary_anchors A0 a ++ secondary_anchors A0 b.
Proof.
  induction a as [|c a IH]; simpl; [reflexivity |].
  destruct (truthy _); simpl; now rewrite IH.
Qed.

Lemma search_pages_weaker (t : string) (s s' : list Secondary) (dx dy w h : Q) :
  (forall page P,
     all_secondary_match page P s' = true ->
     all_secondary_match page P s = true) ->
  forall pages i m',
    fst (search_pages (mkConfig t s' dx dy w h) i pages) = Some m' ->
    exists m,
      fst (search_pages (mkConfig t s dx dy w h) i pages) = Some m /\
      (m_page m <= m_page m')%nat.
Proof.
  intros H.
  assert (forall i page l m',
            fst (check_instances (mkConfig t s' dx dy w h) i page l) = Some m' ->
            exists m,
              fst (check_instances (mkConfig t s dx dy w h) i page l) = Some m)
    as Hc.
  { intros i page l. induction l as [|P l IH]; intros m'; simpl; [discriminate |].
    destruct (try_instance (mkConfig t s dx dy w h) i page P) as [m|] eqn:E;
      [intros _; now exists m |].
    destruct (try_instance (mkConfig t s' dx dy w h) i page P) as [m0|] eqn:E'.
    - exfalso. unfold try_instance in E, E'. simpl in E, E'.
      destruct (all_secondary_match page P s') eqn:A'; [|discriminate].
      rewrite (H page P A') in E.
      destruct (truthy _); discriminate.
    - destruct (check_instances (mkConfig t s' dx dy w h) i page l) as [r' tr'].
      destruct (check_instances (mkConfig t s dx dy w h) i page l) as [r tr].
      simpl in *. exact (IH m'). }
  induction pages as [|[page|] rest IH]; intros i m'; simpl.
  - discriminate.
  - pose proof (Hc i page (primary_instances page t)) as Hpage.
    pose proof (@NativeFacts.check_instances_page (mkConfig t s dx dy w h) i
                  page (primary_instances page t)) as Hp.
    pose proof (@NativeFacts.check_instances_page (mkConfig t s' dx dy w h) i
                  page (primary_instances page t)) as Hp'.
    pose proof (@NativeFacts.search_pages_page (mkConfig t s' dx dy w h)
                  rest (S i)) as Hrest'.
    specialize (IH (S i)).
    destruct (check_instances (mkConfig t s' dx dy w h) i page _)
      as [found' tr'].
    destruct (check_instances (mkConfig t s dx dy w h) i page _)
      as [found tr].
    simpl in *.
    destruct found as [m|].
    + intros Hm'. exists m. split; [reflexivity |].
      rewrite (Hp m eq_refl).
      destruct found' as [m0|].
      * injection Hm' as <-. rewrite (Hp' m0 eq_refl). lia.
      * destruct (search_pages (mkConfig t s' dx dy w h) (S i) rest)
          as [r' trr']; simpl in *.
        specialize (Hrest' m' Hm'). lia.
    + destruct found' as [m0|].
      * destruct (Hpage m0 eq_refl) as [m Hm]. discriminate.
      * destruct (search_pages (mkConfig t s' dx dy w h) (S i) rest)
          as [r' trr']; simpl in *.
        destruct (search_pages (mkConfig t s dx dy w h) (S i) rest)
          as [r trr]; simpl in *.
        exact (IH m').
  - specialize (IH (S i)).
    destruct (search_pages (mkConfig t s' dx dy w h) (S i) rest) as [r' trr'].
    destruct (search_pages (mkConfig t s dx dy w h) (S i) rest) as [r trr].
    simpl in *. exact (IH m').
Qed.

(** X11. Secondary anchors only ever rule candidates out: when a label
    with further secondary anchors has a match in a document, the label
    without them has a match as well, on the same page or on an earlier
    one. *)
Theorem fewer_anchors_still_match :
  forall (doc : Document) (A0 : Box) (rest extra values : list Box)
         (m' : Match),
    fst (_find_box_on_pages doc (A0 :: rest ++ extra) values) = Some m' ->
    exists m,
      fst (_find_box_on_pages doc (A0 :: rest) values) = Some m /\
      (m_page m <= m_page m')%nat.
Proof.
  intros doc A0 rest extra values m'.
  unfold _find_box_on_pages, label_config.
  destruct values as [|V0 vrest]; [discriminate |].
  destruct (truthy (strip (or_empty (name A0)))); [|discriminate].
  apply search_pages_weaker. intros page P.
  rewrite secondary_anchors_app. unfold all_secondary_match.
  rewrite forallb_app, andb_true_iff. tauto.
Qed.

Lemma fewer_anchors_still_match_witness :
  exists m,
    fst (_find_box_on_pages Samples.two_pages [Samples.balance_anchor]
           [Samples.balance_value]) = Some m /\
    (m_page m <= 1)%nat.
Proof.
  exact (@fewer_anchors_still_match Samples.two_pages Samples.balance_anchor
           [] [Samples.account_anchor] [Samples.balance_value]
           (mkMatch 1 "Balance" "1234-5678-9012" (mkRect 180 500 300 514) 0)
           eq_refl).
Defined.

(** *** Rectangles equal as numbers *)








End NativeExtras.

(** ** Saving a drawn box *)

Module CaptureExtras.

Import Fitz PyStr Native Capture.
Local Open Scope Q_scope.

(** X13. An anchor saved on a page that has text under the box, or under
    the box grown by 5 units, is stored under that text, stripped; the
    label it belongs to passes the guard of the matcher, and the matcher
    searches the documents for exactly the stored name. *)
Theorem saved_anchor_is_searchable :
  forall (st : Trainer.Trainer) (scale : Q) (k : Trainer.Key) (page : Page)
         (r : Ocr.QRectF) (box_name : string) (b V0 : Box)
         (arest vrest : list Box),
    _save_box_to_db st scale (Some (k, page)) r box_name AnchorBox = Some b ->
    truthy (strip (get_text page
                     (mkRect (x b) (y b) (x b + width b) (y b + height b))))
    = true \/
    truthy (strip (get_text page
                     (rect_add
                        (mkRect (x b) (y b) (x b + width b) (y b + height b))
                        (-(5), -(5), 5, 5))))
    = true ->
    exists cfg,
      label_config (b :: arest) (V0 :: vrest) = Some cfg /\
      name b = Some (primary_anchor_text cfg) /\
      (primary_anchor_text cfg =
         strip (get_text page
                  (mkRect (x b) (y b) (x b + width b) (y b + height b))) \/
       primary_anchor_text cfg =
         strip (get_text page
                  (rect_add
                     (mkRect (x b) (y b) (x b + width b) (y b + height b))
                     (-(5), -(5), 5, 5)))).
Proof.
  intros st scale k page r box_name b V0 arest vrest Hsave Htext.
  unfold _save_box_to_db in Hsave.
  destruct (Qeq_bool scale 0); [discriminate |].
  destruct (Trainer.saved_coords _ _ _ _ _ _) as [[[px py] pw] ph].
  set (N := stored_name _ _ _ _ _ _ _) in Hsave.
  injection Hsave as <-.
  cbn [x y width height name] in *.
  set (R := mkRect px py (px + pw) (py + ph)) in *.
  set (T1 := strip (get_text page R)) in *.
  set (T2 := strip (get_text page (rect_add R (-(5), -(5), 5, 5)))) in *.
  assert (truthy N = true /\ strip N = N /\ (N = T1 \/ N = T2))
    as [Hn [Hs Hor]].
  { change N with (if truthy T1 then T1
                   else if truthy T2 then T2 else box_name).
    destruct (truthy T1) eqn:E1.
    - repeat split; auto. apply PyStrExtras.strip_idem.
    - destruct Htext as [H | H]; [congruence |]. rewrite H.
      repeat split; auto. apply PyStrExtras.strip_idem. }
  unfold label_config. cbn [name or_empty]. rewrite Hs, Hn.
  eexists. split; [reflexivity |]. cbn [primary_anchor_text]. auto.
Qed.

Lemma saved_anchor_is_searchable_witness :
  exists cfg,
    label_config
      [mkBox (Some "Balance"%string) AnchorBox (100 / 1) (200 / 1) (60 / 1) (12 / 1)
             None]
      [Samples.balance_value] = Some cfg /\
    Some "Balance"%string = Some (primary_anchor_text cfg).
Proof.
  destruct (@saved_anchor_is_searchable Trainer.empty_trainer 1 (0%nat, 0%nat)
              MoreSamples.training_page (Ocr.mkQRectF 100 200 60 12)
              "Anchor"%string
              (mkBox (Some "Balance"%string) AnchorBox (100 / 1) (200 / 1) (60 / 1)
                     (12 / 1) None)
              Samples.balance_value [] [] eq_refl (or_introl eq_refl))
    as [cfg [H1 [H2 _]]].
  exists cfg. split; assumption.
Defined.



End CaptureExtras.

(** ** More about the OCR matcher *)

Module OcrExtras.

Import Fitz PyStr Ocr.
Local Open Scope Q_scope.

Lemma cropped_region_bounds (i : nat) (page : Page) (r : QRectF)
  (j : nat) (x1 y1 x2 y2 : Z) :
  In (ReadCrop j x1 y1 x2 y2) (snd (_ocr_cropped_region i page r)) ->
  j = i /\
  (0 <= x1 < x2)%Z /\ (x2 <= image_width page)%Z /\
  (0 <= y1 < y2)%Z /\ (y2 <= image_height page)%Z.
Proof.
  unfold _ocr_cropped_region.
  set (a1 := Z.max 0 (int_of (qx r))).
  set (b1 := Z.max 0 (int_of (qy r))).
  set (a2 := Z.min (image_width page) (int_of (qx r + qwidth r))).
  set (b2 := Z.min (image_height page) (int_of (qy r + qheight r))).
  destruct ((a2 <=? a1)%Z || (b2 <=? b1)%Z)%bool eqn:E; simpl; [tauto |].
  apply orb_false_iff in E as [Ea Eb].
  apply Z.leb_gt in Ea, Eb.
  assert (In (ReadCrop j x1 y1 x2 y2) [ReadCrop i a1 b1 a2 b2] ->
          j = i /\ (0 <= x1 < x2)%Z /\ (x2 <= image_width page)%Z /\
          (0 <= y1 < y2)%Z /\ (y2 <= image_height page)%Z) as Hone.
  { intros [H | []]. injection H as <- <- <- <- <-.
    subst a1 b1 a2 b2. repeat split; lia. }
  destruct (readtext_crop page a1 b1 a2 b2); exact Hone.
Qed.

Lemma match_on_page_crops (cfg : Config) (i : nat) (page : Page)
  (j : nat) (x1 y1 x2 y2 : Z) :
  In (ReadCrop j x1 y1 x2 y2) (snd (match_on_page cfg i page)) ->
  j = i /\
  (0 <= x1 < x2)%Z /\ (x2 <= image_width page)%Z /\
  (0 <= y1 < y2)%Z /\ (y2 <= image_height page)%Z.
Proof.
  unfold match_on_page.
  destruct (find _ _) as [w|]; [|simpl; intros [H | []]; discriminate].
  pose proof (@cropped_region_bounds i page
                (mkQRectF (left w + value_dx cfg) (top w + value_dy cfg)
                          (value_w cfg) (value_h cfg)) j x1 y1 x2 y2) as Hc.
  destruct (_ocr_cropped_region i page _) as [vt tr]; simpl in *.
  destruct (truthy vt); simpl; intros [H | H]; try discriminate; auto.
Qed.

Lemma search_pages_crops (reader_ok : bool) (cfg : Config) (pages : Document)
  (i j : nat) (x1 y1 x2 y2 : Z) :
  In (ReadCrop j x1 y1 x2 y2) (snd (search_pages reader_ok cfg i pages)) ->
  exists page,
    (i <= j)%nat /\
    nth_error pages (j - i) = Some (Some page) /\
    (0 <= x1 < x2)%Z /\ (x2 <= image_width page)%Z /\
    (0 <= y1 < y2)%Z /\ (y2 <= image_height page)%Z.
Proof.
  revert i. induction pages as [|[page|] rest IH]; intros i; simpl.
  - tauto.
  - assert (In (ReadCrop j x1 y1 x2 y2)
               (snd (search_pages reader_ok cfg (S i) rest)) ->
            exists page0,
              (i <= j)%nat /\
              nth_error (Some page :: rest) (j - i) = Some (Some page0) /\
              (0 <= x1 < x2)%Z /\ (x2 <= image_width page0)%Z /\
              (0 <= y1 < y2)%Z /\ (y2 <= image_height page0)%Z) as Hrest.
    { intros H. destruct (IH _ H) as [p [Hle [Hn Hb]]].
      exists p. split; [lia |]. split; [|exact Hb].
      replace (j - i)%nat with (S (j - S i)) by lia. exact Hn. }
    destruct reader_ok.
    + pose proof (@match_on_page_crops cfg i page j x1 y1 x2 y2) as Hm.
      destruct (match_on_page cfg i page) as [found tr_page]; simpl in *.
      assert (In (ReadCrop j x1 y1 x2 y2) tr_page ->
              exists page0,
                (i <= j)%nat /\
                nth_error (Some page :: rest) (j - i) = Some (Some page0) /\
                (0 <= x1 < x2)%Z /\ (x2 <= image_width page0)%Z /\
                (0 <= y1 < y2)%Z /\ (y2 <= image_height page0)%Z) as Hhere.
      { intros H. destruct (Hm H) as [-> Hb]. exists page.
        split; [lia |]. rewrite Nat.sub_diag. split; [reflexivity | exact Hb]. }
      destruct found as [m|]; simpl.
      * intros [H | H]; [discriminate | auto].
      * destruct (search_pages true cfg (S i) rest) as [r tr]; simpl in *.
        intros [H | H]; [discriminate |].
        apply in_app_iff in H as [H | H]; auto.
    + destruct (search_pages false cfg (S i) rest) as [r tr]; simpl in *.
      intros [H | H]; [discriminate | auto].
  - intros H.
    assert (In (ReadCrop j x1 y1 x2 y2)
               (snd (search_pages reader_ok cfg (S i) rest))) as H'.
    { destruct (search_pages reader_ok cfg (S i) rest) as [r tr]; simpl in *.
      destruct H as [H | H]; [discriminate | exact H]. }
    destruct (IH _ H') as [p [Hle [Hn Hb]]].
    exists p. split; [lia |]. split; [|exact Hb].
    replace (j - i)%nat with (S (j - S i)) by lia. exact Hn.
Qed.

(** The run of a usable label is the run of the page loop. *)
Lemma find_box_with_ocr_cases (reader_ok : bool) (doc : Document)
  (anchors values : list Box) (label_box : option Box) :
  ((forall m,
      fst (_find_box_with_ocr reader_ok doc anchors values label_box)
      <> Returned (Some m)) /\
   snd (_find_box_with_ocr reader_ok doc anchors values label_box) = []) \/
  exists cfg A0 arest V0 vrest,
    anchors = A0 :: arest /\ values = V0 :: vrest /\
    search_text_of A0 = Returned (anchor_search_text cfg) /\
    value_dx cfg = x V0 - x A0 /\ value_dy cfg = y V0 - y A0 /\
    value_w cfg = width V0 /\ value_h cfg = height V0 /\
    fst (_find_box_with_ocr reader_ok doc anchors values label_box) =
      Returned (fst (search_pages reader_ok cfg 0 doc)) /\
    snd (_find_box_with_ocr reader_ok doc anchors values label_box) =
      snd (search_pages reader_ok cfg 0 doc).
Proof.
  unfold _find_box_with_ocr.
  destruct anchors as [|A0 arest]; [left; split; [discriminate | reflexivity] |].
  destruct values as [|V0 vrest]; [left; split; [discriminate | reflexivity] |].
  destruct (search_text_of A0) as [t|e] eqn:Et;
    [|left; split; [discriminate | reflexivity]].
  destruct (truthy t); [|left; split; [discriminate | reflexivity]].
  right.
  match goal with
  | |- context [search_pages reader_ok ?c 0 doc] =>
      exists c, A0, arest, V0, vrest;
      destruct (search_pages reader_ok c 0 doc) as [r tr]
  end.
  simpl. repeat split; auto.
Qed.

(** X15. Every crop the OCR matcher hands to the detector is a non-empty
    part of the raster of the page it is working on: its left and top
    edges are not negative, its right and bottom edges are within the image
    and beyond the left and top ones. *)
Theorem ocr_crops_stay_inside_the_image :
  forall (reader_ok : bool) (doc : Document) (anchors values : list Box)
         (label_box : option Box) (page_idx : nat) (x1 y1 x2 y2 : Z),
    In (ReadCrop page_idx x1 y1 x2 y2)
       (snd (_find_box_with_ocr reader_ok doc anchors values label_box)) ->
    exists page,
      nth_error doc page_idx = Some (Some page) /\
      (0 <= x1 < x2)%Z /\ (x2 <= image_width page)%Z /\
      (0 <= y1 < y2)%Z /\ (y2 <= image_height page)%Z.
Proof.
  intros reader_ok doc anchors values lb j x1 y1 x2 y2 HIn.
  destruct (find_box_with_ocr_cases reader_ok doc anchors values lb)
    as [[_ E] | [cfg [A0 [arest [V0 [vrest [_ [_ [_ [_ [_ [_ [_ [_ E]]]]]]]]]]]]]].
  - rewrite E in HIn. destruct HIn.
  - rewrite E in HIn.
    destruct (search_pages_crops _ _ _ _ _ _ _ _ _ HIn) as [p [_ [Hn Hb]]].
    rewrite Nat.sub_0_r in Hn. now exists p.
Qed.

Lemma ocr_crops_stay_inside_the_image_witness :
  exists page,
    nth_error [Some Samples.scanned_page] 0 = Some (Some page) /\
    (0 <= 720 < 1020)%Z /\ (1020 <= image_width page)%Z /\
    (0 <= 600 < 650)%Z /\ (650 <= image_height page)%Z.
Proof.
  apply (@ocr_crops_stay_inside_the_image true [Some Samples.scanned_page]
           [Samples.ocr_anchor] [Samples.ocr_value] None 0 720 600 1020 650).
  vm_compute. right. right. left. reflexivity.
Defined.

Lemma search_pages_no_reader (cfg : Config) (pages : Document) (i : nat) :
  search_pages false cfg i pages
  = (None, map LoadPage (seq i (length pages))).
Proof.
  revert i. induction pages as [|[page|] rest IH]; intros i; simpl;
    [reflexivity | |]; now rewrite IH.
Qed.

(** X16. Without an OCR reader the OCR matcher never finds anything and
    never calls the detector: it returns no match, and all it does is
    load every page of the document, in order (or nothing at all when the
    label is unusable). *)
Theorem no_reader_no_match :
  forall (doc : Document) (anchors values : list Box) (label_box : option Box),
    (forall m,
       fst (_find_box_with_ocr false doc anchors values label_box)
       <> Returned (Some m)) /\
    (snd (_find_box_with_ocr false doc anchors values label_box) = [] \/
     snd (_find_box_with_ocr false doc anchors values label_box)
     = map LoadPage (seq 0 (length doc))).
Proof.
  intros doc anchors values lb. unfold _find_box_with_ocr.
  destruct anchors as [|A0 arest]; [split; [discriminate | now left] |].
  destruct values as [|V0 vrest]; [split; [discriminate | now left] |].
  destruct (search_text_of A0) as [t|e]; [|split; [discriminate | now left]].
  destruct (truthy t); [|split; [discriminate | now left]].
  rewrite search_pages_no_reader. simpl. split; [discriminate | now right].
Qed.

Lemma match_on_page_shape (cfg : Config) (i : nat) (page : Page) (m : Match) :
  fst (match_on_page cfg i page) = Some m ->
  m_page m = i /\
  truthy (m_value_text m) = true /\
  exists w,
    find (word_matches (anchor_search_lower (anchor_search_text cfg)))
         (words_of (readtext_full page)) = Some w /\
    m_anchor_text m = text w /\
    m_value_rect m =
      to_points (mkQRectF (left w + value_dx cfg) (top w + value_dy cfg)
                          (value_w cfg) (value_h cfg)).
Proof.
  unfold match_on_page.
  destruct (find _ _) as [w|]; [|discriminate].
  destruct (_ocr_cropped_region i page _) as [vt tr]; simpl.
  destruct (truthy vt) eqn:E; simpl; [|discriminate].
  intros H. injection H as <-. simpl. repeat split; auto.
  exists w. auto.
Qed.

Lemma search_pages_first (cfg : Config) (pages : Document) (i : nat)
  (m : Match) :
  fst (search_pages true cfg i pages) = Some m ->
  exists page,
    (i <= m_page m)%nat /\
    nth_error pages (m_page m - i) = Some (Some page) /\
    fst (match_on_page cfg (m_page m) page) = Some m /\
    forall j page',
      (i <= j < m_page m)%nat ->
      nth_error pages (j - i) = Some (Some page') ->
      fst (match_on_page cfg j page') = None.
Proof.
  revert i. induction pages as [|[page|] rest IH]; intros i; simpl.
  - discriminate.
  - pose proof (@match_on_page_shape cfg i page) as Hs.
    destruct (match_on_page cfg i page) as [found tr_page] eqn:Ep.
    simpl in *. destruct found as [m0|]; simpl.
    + intros H. injection H as ->.
      destruct (Hs m eq_refl) as [Hpage _]. exists page.
      rewrite Hpage, Nat.sub_diag, Ep. simpl.
      repeat split; auto. intros j p' Hj. lia.
    + specialize (IH (S i)).
      destruct (search_pages true cfg (S i) rest) as [r tr]; simpl in *.
      intros H. destruct (IH H) as [p [Hle [Hn [Hm Hbefore]]]].
      exists p. split; [lia |]. split.
      { replace (m_page m - i)%nat with (S (m_page m - S i)) by lia. exact Hn. }
      split; [exact Hm |].
      intros j p' Hj Hnj.
      destruct (Nat.eq_dec j i) as [-> | Hne].
      * rewrite Nat.sub_diag in Hnj. injection Hnj as <-. now rewrite Ep.
      * apply Hbefore; [lia |].
        replace (j - i)%nat with (S (j - S i)) in Hnj by lia. exact Hnj.
  - specialize (IH (S i)).
    destruct (search_pages true cfg (S i) rest) as [r tr]; simpl in *.
    intros H. destruct (IH H) as [p [Hle [Hn [Hm Hbefore]]]].
    exists p. split; [lia |]. split.
    { replace (m_page m - i)%nat with (S (m_page m - S i)) by lia. exact Hn. }
    split; [exact Hm |].
    intros j p' Hj Hnj.
    destruct (Nat.eq_dec j i) as [-> | Hne].
    + rewrite Nat.sub_diag in Hnj. discriminate.
    + apply Hbefore; [lia |].
      replace (j - i)%nat with (S (j - S i)) in Hnj by lia. exact Hnj.
Qed.

(** X17. A match of the OCR matcher comes from the first page that gives
    one: there is a reader, the page of the match is a loaded page of the
    document, no loaded page before it gives a match, the value text is
    not empty, the anchor text is the text of the first token of that page
    that matches, and the value rectangle is the rectangle at the trained
    offset from that token with the trained size, converted from raster
    pixels to points. *)
Theorem ocr_match_comes_from_first_page :
  forall (reader_ok : bool) (doc : Document) (anchors values : list Box)
         (label_box : option Box) (m : Match),
    fst (_find_box_with_ocr reader_ok doc anchors values label_box)
    = Returned (Some m) ->
    reader_ok = true /\
    truthy (m_value_text m) = true /\
    exists cfg A0 arest V0 vrest page w,
      anchors = A0 :: arest /\
      values = V0 :: vrest /\
      search_text_of A0 = Returned (anchor_search_text cfg) /\
      nth_error doc (m_page m) = Some (Some page) /\
      fst (match_on_page cfg (m_page m) page) = Some m /\
      find (word_matches (anchor_search_lower (anchor_search_text cfg)))
           (words_of (readtext_full page)) = Some w /\
      m_anchor_text m = text w /\
      m_value_rect m =
        to_points (mkQRectF (left w + (x V0 - x A0)) (top w + (y V0 - y A0))
                            (width V0) (height V0)) /\
      forall j page',
        (j < m_page m)%nat ->
        nth_error doc j = Some (Some page') ->
        fst (match_on_page cfg j page') = None.
Proof.
  intros reader_ok doc anchors values lb m Hm.
  destruct (find_box_with_ocr_cases reader_ok doc anchors values lb)
    as [[E _] | [cfg [A0 [arest [V0 [vrest
         [Ea [Ev [Et [Hdx [Hdy [Hw [Hh [Ef _]]]]]]]]]]]]]].
  - exfalso. exact (E m Hm).
  - rewrite Ef in Hm. injection Hm as Hm.
    destruct reader_ok; [|rewrite search_pages_no_reader in Hm; discriminate].
    split; [reflexivity |].
    destruct (search_pages_first _ _ _ Hm) as [p [_ [Hn [Hp Hbefore]]]].
    rewrite Nat.sub_0_r in Hn.
    destruct (match_on_page_shape _ _ _ Hp) as [_ [Hv [w [Hw1 [Hw2 Hw3]]]]].
    split; [exact Hv |].
    exists cfg, A0, arest, V0, vrest, p, w.
    rewrite Hdx, Hdy, Hw, Hh in Hw3.
    repeat split; auto.
    intros j p' Hj Hnj. apply Hbefore; [lia |]. now rewrite Nat.sub_0_r.
Qed.

Lemma ocr_match_comes_from_first_page_witness :
  true = true /\
  truthy "1234" = true /\
  exists cfg A0 arest V0 vrest page w,
    [Samples.ocr_anchor] = A0 :: arest /\
    [Samples.ocr_value] = V0 :: vrest /\
    search_text_of A0 = Returned (anchor_search_text cfg) /\
    nth_error [Some Samples.scanned_page] 0 = Some (Some page) /\
    fst (match_on_page cfg 0 page) =
      Some (mkMatch 0 "ACCOUNT NUMBER: 1234" "1234"
              (mkRect (51840 # 300) (43200 # 300) (73440 # 300) (46800 # 300))
              None) /\
    find (word_matches (anchor_search_lower (anchor_search_text cfg)))
         (words_of (readtext_full page)) = Some w /\
    "ACCOUNT NUMBER: 1234"%string = text w /\
    mkRect (51840 # 300) (43200 # 300) (73440 # 300) (46800 # 300) =
      to_points (mkQRectF (left w + (x V0 - x A0)) (top w + (y V0 - y A0))
                          (width V0) (height V0)) /\
    forall j page',
      (j < 0)%nat ->
      nth_error [Some Samples.scanned_page] j = Some (Some page') ->
      fst (match_on_page cfg j page') = None.
Proof.
  exact (@ocr_match_comes_from_first_page true [Some Samples.scanned_page]
           [Samples.ocr_anchor] [Samples.ocr_value] None
           (mkMatch 0 "ACCOUNT NUMBER: 1234" "1234"
              (mkRect (51840 # 300) (43200 # 300) (73440 # 300) (46800 # 300))
              None)
           eq_refl).
Defined.

End OcrExtras.

(** ** Naming a captured anchor *)

Module OcrTrainExtras.

Import PyStr OcrTrain.
Local Open Scope string_scope.

Lemma replace_absent (old new s : string) :
  contains old s = false -> replace old new s = s.
Proof.
  unfold replace. induction s as [|c s IH]; [reflexivity |].
  cbn [contains]. intros H. apply orb_false_iff in H as [H1 H2].
  cbn [replace_from]. rewrite H1. now rewrite (IH H2).
Qed.

Lemma replace_anchor_prefix (t : string) :
  replace "Anchor: " "" ("Anchor: " ++ t) = replace "Anchor: " "" t.
Proof. reflexivity. Qed.

(** X18. The text captured for an anchor is the text the OCR matcher
    searches for.  With the text stored in [anchor_text], the matcher uses
    it as it is unless it starts with "Anchor:".  For a row without stored
    text, the matcher recovers the text from the name "Anchor: ..." when
    the text has at most 20 characters, no whitespace around it, and
    contains neither "Anchor: " nor "...". *)
Theorem captured_anchor_text_round_trip :
  forall (r : Ocr.QRectF) (box_name t : string),
    truthy t = true ->
    (startswith t "Anchor:" = false ->
     Ocr.search_text_of (stored_anchor r box_name t) = Returned t) /\
    ((String.length t <= 20)%nat ->
     strip t = t ->
     contains "Anchor: " t = false ->
     contains "..." t = false ->
     Ocr.search_text_of
       (mkBox (name (stored_anchor r box_name t)) AnchorBox
              (Ocr.qx r) (Ocr.qy r) (Ocr.qwidth r) (Ocr.qheight r) None)
     = Returned t).
Proof.
  intros r box_name t Ht.
  unfold stored_anchor, on_box_created. rewrite Ht. split.
  - intros Hs. unfold Ocr.search_text_of.
    cbn [name anchor_text or_empty]. now rewrite Ht, Hs.
  - intros Hlen Hstrip Ha Hd.
    unfold Ocr.search_text_of, short_text.
    assert ((20 <? String.length t)%nat = false) as ->
      by (apply Nat.ltb_ge; exact Hlen).
    cbn [name anchor_text or_empty truthy negb orb].
    now rewrite replace_anchor_prefix,
      (@replace_absent "Anchor: " "" t Ha),
      (@replace_absent "..." "" t Hd), Hstrip.
Qed.

Lemma captured_anchor_text_round_trip_witness :
  Ocr.search_text_of
    (mkBox (name (stored_anchor (Ocr.mkQRectF 300 600 400 50) "Anchor"
                    "Account Number:"))
           AnchorBox 300 600 400 50 None)
  = Returned "Account Number:".
Proof.
  apply (proj2 (@captured_anchor_text_round_trip
                  (Ocr.mkQRectF 300 600 400 50) "Anchor" "Account Number:"
                  eq_refl)).
  - simpl. lia.
  - reflexivity.
  - reflexivity.
  - reflexivity.
Defined.

End OcrTrainExtras.

(** ** The preview line of the backup *)

Module BackupExtras.

Import Backup.
Local Open Scope string_scope.

Lemma length_app (a b : string) :
  String.length (a ++ b) = (String.length a + String.length b)%nat.
Proof.
  induction a as [|c a IH]; simpl; [reflexivity | now rewrite IH].
Qed.

Lemma length_prefix (n : nat) (s : string) :
  String.length (substring 0 n s) = Nat.min n (String.length s).
Proof.
  revert s. induction n as [|n IH]; intros [|c s]; simpl; auto.
Qed.

Lemma prefix_app (n : nat) (s : string) :
  exists tail, s = substring 0 n s ++ tail.
Proof.
  revert s. induction n as [|n IH]; intros s.
  - exists s. destruct s; reflexivity.
  - destruct s as [|c s]; [now exists "" |].
    destruct (IH s) as [tail H]. exists tail. simpl. now rewrite <- H.
Qed.

(** X19. The preview of a value in the backup page never has more than
    103 characters: a value of at most 100 characters is shown whole, a
    longer one as its first 100 characters followed by three dots. *)
Theorem value_preview_is_bounded :
  forall (value_text : string),
    (String.length (value_preview value_text) <= 103)%nat /\
    ((String.length value_text <= 100)%nat ->
     value_preview value_text = value_text) /\
    ((100 < String.length value_text)%nat ->
     String.length (value_preview value_text) = 103%nat /\
     exists tail,
       value_preview value_text = substring 0 100 value_text ++ "..." /\
       value_text = substring 0 100 value_text ++ tail).
Proof.
  intros t. unfold value_preview.
  destruct (100 <? String.length t)%nat eqn:E.
  - apply Nat.ltb_lt in E.
    assert (String.length (substring 0 100 t ++ "...") = 103%nat) as Hl.
    { rewrite length_app, length_prefix.
      change (String.length "...") with 3%nat. lia. }
    split; [lia |]. split; [lia |]. intros _. split; [exact Hl |].
    destruct (prefix_app 100 t) as [tail H]. exists tail. auto.
  - apply Nat.ltb_ge in E. split; [lia |]. split; [reflexivity | lia].
Qed.

End BackupExtras.

(** ** The labels and the columns of a run *)

Module TemplateExtras.

Import Batch Template.
Local Open Scope string_scope.

Lemma name_eqb_eq (a b : option string) : name_eqb a b = true <-> a = b.
Proof.
  destruct a as [s|], b as [t|]; simpl.
  - rewrite String.eqb_eq. split; congruence.
  - split; discriminate.
  - split; discriminate.
  - tauto.
Qed.

Lemma known_spec (all_labels : list StoredLabel) (n : option string) :
  known all_labels n = true <-> In n (map raw_name all_labels).
Proof.
  unfold known. rewrite existsb_exists, in_map_iff. split.
  - intros [l [HIn H]]. apply name_eqb_eq in H. now exists l.
  - intros [l [H HIn]]. exists l. split; [exact HIn |]. now apply name_eqb_eq.
Qed.

Lemma kept_first_step (seen kept : list StoredLabel) (lb : StoredLabel) :
  kept_first seen kept ->
  kept_first (seen ++ [lb])
    (if known kept (raw_name lb) then kept else (kept ++ [lb])%list).
Proof.
  intros [Hnd [Hnames Hfirst]].
  destruct (known kept (raw_name lb)) eqn:E.
  - apply known_spec in E. split; [exact Hnd |]. split.
    + intros n. rewrite map_app, in_app_iff, Hnames. simpl.
      split; [intros [H | [<- | []]]; auto | auto].
    + intros l Hl. destruct (Hfirst l Hl) as [pre [post [-> Hpre]]].
      exists pre, (post ++ [lb])%list. split; [|exact Hpre].
      now rewrite <- app_assoc.
  - assert (~ In (raw_name lb) (map raw_name kept)) as Hnew.
    { intros H. apply known_spec in H. congruence. }
    split; [|split].
    + rewrite map_app. simpl.
      apply NoDup_app; [exact Hnd | repeat constructor; tauto |].
      intros a Ha [<- | []]. contradiction.
    + intros n. rewrite !map_app, !in_app_iff, Hnames. tauto.
    + intros l Hl. apply in_app_iff in Hl as [Hl | [<- | []]].
      * destruct (Hfirst l Hl) as [pre [post [-> Hpre]]].
        exists pre, (post ++ [lb])%list. split; [|exact Hpre].
        now rewrite <- app_assoc.
      * exists seen, []. split; [reflexivity |].
        intros H. apply Hnames in H. contradiction.
Qed.

Lemma add_labels_kept_first (label_boxes seen kept : list StoredLabel) :
  kept_first seen kept ->
  kept_first (seen ++ label_boxes) (add_labels label_boxes kept).
Proof.
  revert seen kept. induction label_boxes as [|lb rest IH]; intros seen kept H.
  - now rewrite app_nil_r.
  - simpl. pose proof (kept_first_step lb H) as Hstep.
    replace (seen ++ lb :: rest)%list with ((seen ++ [lb]) ++ rest)%list
      by now rewrite <- app_assoc.
    destruct (known kept (raw_name lb)); now apply IH.
Qed.

Lemma collect_kept_first (pages : list (list StoredLabel))
  (seen kept : list StoredLabel) :
  kept_first seen kept ->
  kept_first (seen ++ concat pages)
    (fold_left (fun all_labels label_boxes => add_labels label_boxes all_labels)
               pages kept).
Proof.
  revert seen kept. induction pages as [|page rest IH]; intros seen kept H.
  - simpl. now rewrite app_nil_r.
  - simpl. rewrite app_assoc. apply IH. now apply add_labels_kept_first.
Qed.

(** X20. The labels a run works with have pairwise distinct names; a name
    is among them exactly when some label box of the template carries it;
    and each of them is the first label box with its name, in the order of
    the pages and of the boxes on a page. *)
Theorem collected_labels_are_first_seen :
  forall (pages : list (list StoredLabel)),
    NoDup (map raw_name (collect_labels pages)) /\
    (forall n,
       In n (map raw_name (concat pages)) <->
       In n (map raw_name (collect_labels pages))) /\
    (forall l,
       In l (collect_labels pages) ->
       exists pre post,
         concat pages = (pre ++ l :: post)%list /\
         ~ In (raw_name l) (map raw_name pre)).
Proof.
  intros pages.
  assert (kept_first [] []) as H0.
  { split; [constructor |]. split; [tauto | intros l []]. }
  exact (collect_kept_first pages H0).
Qed.

Example collect_labels_sample :
  map raw_name (collect_labels MoreSamples.template_pages)
  = [Some "Balance"; Some "Total"].
Proof. reflexivity. Qed.

(** *** The keys of a row *)

Lemma srev_app (a b : string) : srev (a ++ b) = srev b ++ srev a.
Proof.
  induction a as [|c a IH]; simpl.
  - now rewrite PyStrFacts.append_empty_r.
  - now rewrite IH, PyStrFacts.append_assoc.
Qed.

Lemma srev_involutive (s : string) : srev (srev s) = s.
Proof.
  induction s as [|c s IH]; simpl; [reflexivity |].
  now rewrite srev_app, IH.
Qed.

Lemma append_inj_l (t a b : string) : t ++ a = t ++ b -> a = b.
Proof.
  induction t as [|c t IH]; simpl; [auto |].
  intros H. injection H as H. auto.
Qed.

Lemma append_inj_r (t a b : string) : a ++ t = b ++ t -> a = b.
Proof.
  intros H. apply (f_equal srev) in H. rewrite !srev_app in H.
  apply append_inj_l in H. apply (f_equal srev) in H.
  now rewrite !srev_involutive in H.
Qed.

Lemma anchor_is_not_value (a b : string) : a ++ "_Anchor" <> b ++ "_Value".
Proof.
  intros H. apply (f_equal srev) in H. rewrite !srev_app in H. discriminate.
Qed.

Lemma anchor_is_not_filename (a : string) : a ++ "_Anchor" <> "PDF Filename".
Proof.
  intros H. apply (f_equal srev) in H. rewrite srev_app in H. discriminate.
Qed.

Lemma value_is_not_filename (a : string) : a ++ "_Value" <> "PDF Filename".
Proof.
  intros H. apply (f_equal srev) in H. rewrite srev_app in H. discriminate.
Qed.

Lemma dict_set_new (row : Row) (key v : string) :
  ~ In key (map fst row) ->
  map fst (dict_set row key v) = (map fst row ++ [key])%list.
Proof.
  induction row as [|[k old] row IH]; simpl; [reflexivity |].
  intros H. destruct (String.eqb k key) eqn:E.
  - apply String.eqb_eq in E. tauto.
  - simpl. rewrite IH; tauto.
Qed.

Section Rows.

Variable Doc : Type.
Variable find_match : Doc -> Label -> outcome (option (string * string)).
Variable doc : Doc.

Lemma fill_row_keys (labels : list Label) (row0 row : Row) :
  NoDup (map label_name labels) ->
  (forall l, In l labels ->
     ~ In (label_name l ++ "_Anchor") (map fst row0) /\
     ~ In (label_name l ++ "_Value") (map fst row0)) ->
  fill_row find_match doc labels row0 = Returned row ->
  map fst row = (map fst row0 ++ label_columns labels)%list /\
  (forall k, In k (map fst row0) -> dict_get row k = dict_get row0 k) /\
  (forall l, In l labels ->
     (dict_get row (label_name l ++ "_Anchor"),
      dict_get row (label_name l ++ "_Value"))
     = cells_of (find_match doc l)).
Proof.
  revert row0. induction labels as [|l rest IH]; intros row0 Hnd Hfresh Hrow.
  - simpl in *. injection Hrow as <-. rewrite app_nil_r.
    split; [reflexivity |]. split; [reflexivity | intros l []].
  - inversion Hnd as [|n ns Hl Hrest]; subst.
    destruct (Hfresh l (or_introl eq_refl)) as [HA HV].
    set (kA := label_name l ++ "_Anchor") in *.
    set (kV := label_name l ++ "_Value") in *.
    assert (kA <> kV) as Hav by apply anchor_is_not_value.
    assert (exists a v,
              cells_of (find_match doc l) = (a, v) /\
              fill_row find_match doc rest
                (dict_set (dict_set row0 kA a) kV v) = Returned row)
      as [a [v [Hcells Hfill]]].
    { simpl in Hrow. fold kA kV in Hrow.
      destruct (find_match doc l) as [[[a v]|]|e]; [| |discriminate].
      - exists a, v. auto.
      - exists "", "". auto. }
    set (row1 := dict_set (dict_set row0 kA a) kV v) in *.
    assert (map fst row1 = (map fst row0 ++ [kA; kV])%list) as Hkeys1.
    { unfold row1. rewrite dict_set_new.
      - rewrite dict_set_new by exact HA. now rewrite <- app_assoc.
      - rewrite dict_set_new by exact HA. rewrite in_app_iff. simpl.
        intros [H | [H | []]]; [contradiction | congruence]. }
    assert (forall l', In l' rest ->
              ~ In (label_name l' ++ "_Anchor") (map fst row1) /\
              ~ In (label_name l' ++ "_Value") (map fst row1)) as Hfresh1.
    { intros l' Hl'. destruct (Hfresh l' (or_intror Hl')) as [HA' HV'].
      assert (label_name l' <> label_name l) as Hne.
      { intros E. apply Hl. rewrite <- E. now apply in_map. }
      rewrite Hkeys1, !in_app_iff. simpl. split.
      - intros [H | [H | [H | []]]]; [contradiction | |].
        + apply append_inj_r in H. congruence.
        + symmetry in H. now apply anchor_is_not_value in H.
      - intros [H | [H | [H | []]]]; [contradiction | |].
        + now apply anchor_is_not_value in H.
        + apply append_inj_r in H. congruence. }
    destruct (IH row1 Hrest Hfresh1 Hfill) as [Hkeys [Hold Hnew]].
    split; [|split].
    + rewrite Hkeys, Hkeys1, <- app_assoc. reflexivity.
    + intros k Hk. rewrite Hold by (rewrite Hkeys1, in_app_iff; now left).
      unfold row1.
      rewrite BatchFacts.dict_get_set_other by (intros E; subst; contradiction).
      rewrite BatchFacts.dict_get_set_other by (intros E; subst; contradiction).
      reflexivity.
    + intros l' [<- | Hl'].
      * fold kA kV. rewrite Hcells.
        rewrite !Hold by (rewrite Hkeys1, in_app_iff; right; simpl; auto).
        unfold row1. rewrite BatchFacts.dict_get_set_same.
        rewrite BatchFacts.dict_get_set_other by (intros E; now apply Hav).
        now rewrite BatchFacts.dict_get_set_same.
      * now apply Hnew.
Qed.

End Rows.

(** X21. When the labels have distinct names and no match raises, the row
    built for a document has exactly the columns of the table, in their
    order: the file name first, then the anchor and the value of each
    label.  Its file-name cell is the name of the file, and the two cells
    of a label are the anchor text and the value text of its match, or
    empty strings when it has none. *)
Theorem row_has_the_table_columns :
  forall (Doc : Type)
         (find_match : Doc -> Label -> outcome (option (string * string)))
         (doc : Doc) (labels : list Label) (filename : string) (row : Row),
    NoDup (map label_name labels) ->
    fill_row find_match doc labels [("PDF Filename", filename)]
    = Returned row ->
    map fst row = columns labels /\
    dict_get row "PDF Filename" = filename /\
    (forall l, In l labels ->
       (dict_get row (label_name l ++ "_Anchor"),
        dict_get row (label_name l ++ "_Value"))
       = cells_of (find_match doc l)).
Proof.
  intros Doc find_match doc labels filename row Hnd Hrow.
  destruct (@fill_row_keys Doc find_match doc labels
              [("PDF Filename", filename)] row Hnd) as [Hk [Hold Hnew]].
  - intros l _. simpl. split; intros [H | []]; symmetry in H.
    + now apply anchor_is_not_filename in H.
    + now apply value_is_not_filename in H.
  - exact Hrow.
  - split; [exact Hk |]. split; [|exact Hnew].
    rewrite Hold by (simpl; auto). reflexivity.
Qed.

Lemma row_has_the_table_columns_witness :
  map fst [("PDF Filename", "a.pdf"); ("Balance_Anchor", "Balance");
           ("Balance_Value", "1234-5678-9012")]
  = columns [Samples.balance_label].
Proof.
  apply (@row_has_the_table_columns Native.Document native_match
           Samples.two_pages [Samples.balance_label] "a.pdf"
           [("PDF Filename", "a.pdf"); ("Balance_Anchor", "Balance");
            ("Balance_Value", "1234-5678-9012")]).
  - repeat constructor. simpl. tauto.
  - vm_compute. reflexivity.
Defined.

Lemma extraction_loop_rows (Doc : Type) (open_doc : string -> outcome Doc)
  (basename : string -> string)
  (find_match : Doc -> Label -> outcome (option (string * string)))
  (labels : list Label) (paths : list string) (acc rows : list Row)
  (e : option exn) :
  NoDup (map label_name labels) ->
  extraction_loop open_doc basename find_match labels paths acc = (rows, e) ->
  exists new,
    rows = (acc ++ new)%list /\
    Forall (fun row => map fst row = columns labels) new /\
    map (fun row => dict_get row "PDF Filename") new
    = map basename (firstn (length new) paths) /\
    (length new <= length paths)%nat /\
    (e = None -> length new = length paths).
Proof.
  intros Hnd. revert acc.
  induction paths as [|p rest IH]; intros acc Hrun; simpl in Hrun.
  - injection Hrun as <- <-. exists []. rewrite app_nil_r.
    repeat split; auto.
  - destruct (open_doc p) as [doc|err].
    + destruct (fill_row find_match doc labels [("PDF Filename", basename p)])
        as [row|err] eqn:Hrow.
      * destruct (IH _ Hrun) as [new [-> [Hcols [Hnames [Hlen Hall]]]]].
        destruct (row_has_the_table_columns _ _ _ _ Hnd Hrow) as [Hk [Hf _]].
        exists (row :: new). rewrite <- app_assoc. simpl.
        split; [reflexivity |]. split; [now constructor |].
        split; [now rewrite Hf, Hnames |].
        split; [lia |]. intros He. now rewrite Hall.
      * injection Hrun as <- <-. exists []. rewrite app_nil_r. simpl.
        repeat split; auto; [lia | discriminate].
    + injection Hrun as <- <-. exists []. rewrite app_nil_r. simpl.
      repeat split; auto; [lia | discriminate].
Qed.

(** X22. In a run over labels with distinct names, however it ends, every
    row has exactly the columns of the table, and the rows follow the
    documents: the k-th row carries the file name of the k-th document,
    there are never more rows than documents, and as many when the run
    ends without an exception. *)
Theorem rows_follow_the_documents :
  forall (Doc : Type) (open_doc : string -> outcome Doc)
         (basename : string -> string)
         (find_match : Doc -> Label -> outcome (option (string * string)))
         (labels : list Label) (paths : list string),
    NoDup (map label_name labels) ->
    Forall (fun row => map fst row = columns labels)
           (fst (run_extraction open_doc basename find_match labels paths)) /\
    map (fun row => dict_get row "PDF Filename")
        (fst (run_extraction open_doc basename find_match labels paths))
    = map basename
        (firstn (length (fst (run_extraction open_doc basename find_match
                                labels paths))) paths) /\
    (length (fst (run_extraction open_doc basename find_match labels paths))
     <= length paths)%nat /\
    (snd (run_extraction open_doc basename find_match labels paths) = None ->
     length (fst (run_extraction open_doc basename find_match labels paths))
     = length paths).
Proof.
  intros Doc open_doc basename find_match labels paths Hnd.
  unfold run_extraction.
  destruct (extraction_loop open_doc basename find_match labels paths [])
    as [rows e] eqn:Hrun.
  destruct (extraction_loop_rows _ _ _ _ _ _ Hnd Hrun)
    as [new [-> [Hcols [Hnames [Hlen Hall]]]]].
  simpl. auto.
Qed.

Lemma rows_follow_the_documents_witness :
  map (fun row => dict_get row "PDF Filename")
      (fst (run_extraction Samples.three_files Samples.same_name native_match
              [Samples.balance_label] ["a.pdf"; "b.pdf"; "c.pdf"]))
  = map Samples.same_name
      (firstn (length (fst (run_extraction Samples.three_files
                              Samples.same_name native_match
                              [Samples.balance_label]
                              ["a.pdf"; "b.pdf"; "c.pdf"])))
              ["a.pdf"; "b.pdf"; "c.pdf"]).
Proof.
  apply (proj1 (proj2 (@rows_follow_the_documents Native.Document
                         Samples.three_files Samples.same_name native_match
                         [Samples.balance_label] ["a.pdf"; "b.pdf"; "c.pdf"]
                         ltac:(repeat constructor; simpl; tauto)))).
Defined.

End TemplateExtras.
